(** * CriticalPeriod-Classification: [train.py]

  A shallow embedding of the training script and the properties of its
  deficit-removal callback, image pipelines, blur-resample transform,
  training module and trainer configuration.

  Conventions.
  - Python [int] is [Z]; Python [float] literals are the rationals their
    decimal text denotes ([Q]); float32 rounding inside tensors is not
    modelled, tensor elements are exact rationals.
  - Python objects that are shared by reference (the [Compose] pipelines
    and the CIFAR10 dataset objects) live in an object heap, a
    [gmap loc obj]; fields holding objects hold locations.
  - An uncaught Python exception is [None] in the [option] monad. *)

From Stdlib Require Import ZArith QArith Qround List Lia Lqa.
From stdpp Require Import base option list gmap strings pretty.

Local Open Scope Z_scope.

(** ** Configuration: [parse_args] *)

Module Config.

(** The namespace returned by [parser.parse_args()]. *)
Record Args := {
  batch_size : Z;
  lr : Q;
  momentum : Q;
  weight_decay : Q;
  epochs_after_deficit : Z;
  gamma : Q;
  project : string;
  run_name : string;
  log_dir : string;
  checkpoint_dir : string;
  num_workers : Z;
  precision : string;
  deficit_epoch : Z
}.

(** The [default=] of every [add_argument] call: the namespace produced
    by an empty command line. *)
Definition default_args : Args := {|
  batch_size := 128;
  lr := 1 # 10;
  momentum := 9 # 10;
  weight_decay := 5 # 10000;
  epochs_after_deficit := 160;
  gamma := 1 # 10;
  project := "CriticalPeriodCifar10";
  run_name := "baseline";
  log_dir := "logs/";
  checkpoint_dir := "checkpoints/";
  num_workers := 8;
  precision := "16";
  deficit_epoch := 0
|}.

Definition set_gamma (g : Q) (a : Args) : Args := {|
  batch_size := batch_size a;
  lr := lr a;
  momentum := momentum a;
  weight_decay := weight_decay a;
  epochs_after_deficit := epochs_after_deficit a;
  gamma := g;
  project := project a;
  run_name := run_name a;
  log_dir := log_dir a;
  checkpoint_dir := checkpoint_dir a;
  num_workers := num_workers a;
  precision := precision a;
  deficit_epoch := deficit_epoch a
|}.

End Config.

(** ** Image pipelines: [train_transforms], [test_transforms] *)

Module Pipeline.

(** The transform objects the script instantiates.  Each constructor
    carries the constructor arguments of the Python object. *)
Inductive transform : Type :=
| RandomHorizontalFlip (p : Q)
| RandomAffine (degrees : Q) (translate : Q * Q)
| ToTensor
| DownUpSampleTransform
| Normalize (mean std : list Q).

(** [transforms.RandomHorizontalFlip()] is called without arguments; its
    signature in torchvision is [__init__(self, p=0.5)]. *)
Definition RandomHorizontalFlip_default : transform :=
  RandomHorizontalFlip (1 # 2).

(** [isinstance(t, DownUpSampleTransform)] *)
Definition isinstance_DownUpSampleTransform (t : transform) : bool :=
  match t with
  | DownUpSampleTransform => true
  | _ => false
  end.

Definition is_augmentation (t : transform) : bool :=
  match t with
  | RandomHorizontalFlip _ | RandomAffine _ _ => true
  | _ => false
  end.

Definition cifar10_mean : list Q := [4914 # 10000; 4822 # 10000; 4465 # 10000]%Q.
Definition cifar10_std : list Q := [247 # 1000; 243 # 1000; 261 # 1000]%Q.

(** The list handed to [transforms.Compose] for the training data.
    [4/32] is Python's true division of two ints. *)
Definition train_transforms : list transform :=
  [ RandomHorizontalFlip_default;
    RandomAffine 0 (4 # 32, 4 # 32)%Q;
    ToTensor;
    DownUpSampleTransform;
    Normalize cifar10_mean cifar10_std ].

Definition test_transforms : list transform :=
  [ ToTensor;
    Normalize cifar10_mean cifar10_std ].

(** torchvision's [RandomAffine.get_params] draws the horizontal shift
    from [[-max_dx, max_dx]] with [max_dx = translate[0] * width] (and
    likewise vertically); this is that bound in pixels. *)
Definition max_shift (fraction : Q) (size : Z) : Q :=
  (fraction * inject_Z size)%Q.

(** The list comprehension of the callback:
    [[t for t in ts if not isinstance(t, DownUpSampleTransform)]]. *)
Definition without_DownUpSample (ts : list transform) : list transform :=
  List.filter (fun t => negb (isinstance_DownUpSampleTransform t)) ts.

End Pipeline.

(** ** Object heap, datasets and the deficit-removal callback *)

Module Callback.
Import Config Pipeline.

Definition loc := nat.

(** Heap objects: a [transforms.Compose] with its [transforms] list, or a
    [datasets.CIFAR10] with its [root], [train] and [transform] fields
    (the latter a reference to a pipeline object). *)
Inductive obj : Type :=
| OCompose (transforms : list transform)
| OCIFAR10 (root : string) (train : bool) (transform : loc).

(** Everything the script holds while training. *)
Record world := {
  heap : gmap loc obj;
  model_parameters : list Q;
  args : Args;
  stdout : list string
}.

Definition set_heap (h : gmap loc obj) (w : world) : world :=
  {| heap := h; model_parameters := model_parameters w;
     args := args w; stdout := stdout w |}.

Definition print (s : string) (w : world) : world :=
  {| heap := heap w; model_parameters := model_parameters w;
     args := args w; stdout := stdout w ++ [s] |}.

(** [Compose(ts)]: allocate a new pipeline object. *)
Definition alloc (o : obj) (h : gmap loc obj) : loc * gmap loc obj :=
  let l := fresh (dom h) in (l, <[l := o]> h).

(** [ds.transform] *)
Definition get_transform (h : gmap loc obj) (ds : loc) : option loc :=
  match h !! ds with
  | Some (OCIFAR10 _ _ r) => Some r
  | _ => None
  end.

(** [c.transforms] *)
Definition get_transforms (h : gmap loc obj) (c : loc) : option (list transform) :=
  match h !! c with
  | Some (OCompose ts) => Some ts
  | _ => None
  end.

(** [ds.transform = r] *)
Definition set_transform (h : gmap loc obj) (ds r : loc) : option (gmap loc obj) :=
  match h !! ds with
  | Some (OCIFAR10 root train _) => Some (<[ds := OCIFAR10 root train r]> h)
  | _ => None
  end.

(** [ds.transform.transforms]: the steps a dataset applies to a sample. *)
Definition pipeline_of (h : gmap loc obj) (ds : loc) : option (list transform) :=
  r ← get_transform h ds; get_transforms h r.

(** The part of [pl.Trainer] the callback reads. *)
Record Trainer := { current_epoch : Z }.

(** [RemoveCataractTransformCallback]: its two attributes. *)
Record RemoveCataractTransformCallback := {
  t0 : Z;
  train_dataset : loc
}.

Definition notice (t : Z) : string :=
  "Removed DownUpSampleTransform at epoch " +:+ pretty t +:+ ".".

(** [on_train_epoch_start(self, trainer, pl_module)].  The module
    argument is never read, so it is the [model_parameters] of the
    [world] that stand for it. *)
Definition on_train_epoch_start
    (self : RemoveCataractTransformCallback) (trainer : Trainer)
    (w : world) : option world :=
  if (current_epoch trainer =? t0 self)%Z then
    r ← get_transform (heap w) (train_dataset self);
    ts ← get_transforms (heap w) r;
    let '(new_transforms, h1) := alloc (OCompose (without_DownUpSample ts)) (heap w) in
    h2 ← set_transform h1 (train_dataset self) new_transforms;
    Some (print (notice (t0 self)) (set_heap h2 w))
  else Some w.

(** The module-level statements up to the construction of the callback:
    the two pipelines, the two datasets that refer to them, and the
    callback built from [args.deficit_epoch] and [train_dataset]. *)
Definition train_transforms_loc : loc := 0%nat.
Definition test_transforms_loc : loc := 1%nat.
Definition train_dataset_loc : loc := 2%nat.
Definition val_dataset_loc : loc := 3%nat.

Definition initial_heap : gmap loc obj :=
  <[val_dataset_loc := OCIFAR10 "./data" false test_transforms_loc]>
  (<[train_dataset_loc := OCIFAR10 "./data" true train_transforms_loc]>
  (<[test_transforms_loc := OCompose test_transforms]>
  (<[train_transforms_loc := OCompose train_transforms]> ∅))).

Definition initial_world (a : Args) (params : list Q) : world :=
  {| heap := initial_heap; model_parameters := params;
     args := a; stdout := [] |}.

Definition the_callback (a : Args) : RemoveCataractTransformCallback :=
  {| t0 := deficit_epoch a; train_dataset := train_dataset_loc |}.

(** The callback's dataset is a live dataset whose pipeline is a live
    [Compose]: the condition under which the hook raises no exception. *)
Definition attached (self : RemoveCataractTransformCallback) (w : world) : Prop :=
  is_Some (pipeline_of (heap w) (train_dataset self)).

End Callback.


(** ** The blur-resample transform: [DownUpSampleTransform.__call__] *)

Module Blur.

(** A tensor object is a view: the identifier of the storage it reads
    and its [size()].  [unsqueeze] and [squeeze] return views of the same
    storage; [F.interpolate] writes its result to a new storage.  The
    store is the list of all storages, indexed by identifier, each one the
    row-major list of the elements. *)
Record Tensor := { storage : nat; size : list nat }.

Definition store := list (list Q).

(** State and exception monad of the tensor operations. *)
Definition M (A : Type) : Type := store -> option (A * store).

Definition ret {A} (a : A) : M A := fun s => Some (a, s).

Definition raise {A} : M A := fun _ => None.

Definition bind {A B} (m : M A) (k : A -> M B) : M B :=
  fun s => match m s with
           | Some (a, s') => k a s'
           | None => None
           end.

Notation "x <-- m ;; k" := (bind m (fun x => k))
  (at level 100, m at next level, right associativity).

Definition read (n : nat) : M (list Q) :=
  fun s => match s !! n with
           | Some d => Some (d, s)
           | None => None
           end.

Definition new_storage (d : list Q) : M nat :=
  fun s => Some (length s, s ++ [d]).

(** [t.unsqueeze(0)] *)
Definition unsqueeze0 (t : Tensor) : M Tensor :=
  ret {| storage := storage t; size := 1%nat :: size t |}.

(** [t.squeeze(0)]: drops the leading dimension when it has length 1. *)
Definition squeeze0 (t : Tensor) : M Tensor :=
  ret {| storage := storage t;
         size := match size t with
                 | 1%nat :: rest => rest
                 | sz => sz
                 end |}.

(** Bilinear resampling as PyTorch computes it for [align_corners=False]
    and a given output [size]: the scale is [input / output], output index
    [dst] reads source coordinate [max 0 (scale * (dst + 1/2) - 1/2)], and
    the value is interpolated between the cell at the floor of that
    coordinate and its successor (the cell itself at the last index). *)
Definition scale_of (input output : nat) : Q :=
  (inject_Z (Z.of_nat input) / inject_Z (Z.of_nat output))%Q.

Definition source_index (scale : Q) (dst : nat) : Q :=
  let src := (scale * (inject_Z (Z.of_nat dst) + (1 # 2)) - (1 # 2))%Q in
  if Qle_bool 0 src then src else 0%Q.

Definition lower_cell (src : Q) : nat := Z.to_nat (Qfloor src).

Definition upper_cell (input : nat) (src : Q) : nat :=
  (lower_cell src + (if lower_cell src <? input - 1 then 1 else 0))%nat.

Definition upper_weight (src : Q) : Q :=
  (src - inject_Z (Z.of_nat (lower_cell src)))%Q.

Definition pixel (d : list Q) (h w plane y x : nat) : Q :=
  nth ((plane * h + y) * w + x) d 0%Q.

Definition bilinear_at (d : list Q) (h w oh ow plane oy ox : nat) : Q :=
  let sy := source_index (scale_of h oh) oy in
  let sx := source_index (scale_of w ow) ox in
  let y0 := lower_cell sy in
  let y1 := upper_cell h sy in
  let x0 := lower_cell sx in
  let x1 := upper_cell w sx in
  let ly := upper_weight sy in
  let lx := upper_weight sx in
  ((1 - ly) * ((1 - lx) * pixel d h w plane y0 x0 + lx * pixel d h w plane y0 x1)
   + ly * ((1 - lx) * pixel d h w plane y1 x0 + lx * pixel d h w plane y1 x1))%Q.

Definition bilinear (planes h w oh ow : nat) (d : list Q) : list Q :=
  flat_map (fun plane =>
    flat_map (fun oy =>
      List.map (fun ox => bilinear_at d h w oh ow plane oy ox) (seq 0 ow))
      (seq 0 oh))
    (seq 0 planes).

(** [F.interpolate(t, size=(oh, ow), mode='bilinear', align_corners=False)].
    Bilinear mode needs a 4-D input (batch, channels, height, width) with
    non-empty channel and spatial dimensions, and raises otherwise. *)
Definition interpolate (t : Tensor) (oh ow : nat) : M Tensor :=
  d <-- read (storage t) ;;
  match size t with
  | [n; c; h; w] =>
      if ((0 <? c) && (0 <? h) && (0 <? w) && (0 <? oh) && (0 <? ow))%nat
      then
        id <-- new_storage (bilinear (n * c) h w oh ow d) ;;
        ret {| storage := id; size := [n; c; oh; ow] |}
      else raise
  | _ => raise
  end.

(** [DownUpSampleTransform.__call__(self, img)].  The object has no
    attributes, so [self] carries nothing. *)
Definition DownUpSampleTransform_call (img : Tensor) : M Tensor :=
  img1 <-- unsqueeze0 img ;;
  img2 <-- interpolate img1 8 8 ;;
  img3 <-- interpolate img2 32 32 ;;
  squeeze0 img3.

(** What a tensor object denotes in a store: its size and its elements. *)
Definition value (s : store) (t : Tensor) : option (list nat * list Q) :=
  d ← s !! storage t; Some (size t, d).

(** A live channels-by-height-by-width image with no empty dimension:
    the inputs [ToTensor] hands to the transform. *)
Definition image (s : store) (t : Tensor) (c h w : nat) : Prop :=
  size t = [c; h; w] /\ (0 < c)%nat /\ (0 < h)%nat /\ (0 < w)%nat /\
  exists d, s !! storage t = Some d /\ length d = (c * h * w)%nat.

(** A 3 by 16 by 16 image of zeros in a store of its own. *)
Definition zeros_3x16x16 : store := [ repeat 0%Q 768 ].
Definition img_3x16x16 : Tensor := {| storage := 0; size := [3; 16; 16]%nat |}.

(** A 1 by 2 by 2 image and the same image held at another place of a
    larger store. *)
Definition store_a : store := [ [1; 2; 3; 4]%Q ].
Definition img_a : Tensor := {| storage := 0; size := [1; 2; 2]%nat |}.
Definition store_b : store := [ [7; 7]%Q; [1; 2; 3; 4]%Q ].
Definition img_b : Tensor := {| storage := 1; size := [1; 2; 2]%nat |}.

End Blur.

(** ** The training module: [CIFAR10Classifier] *)

Module Classifier.
Import Config.

(** A scalar float tensor: a number, or the not-a-number that the mean
    of an empty tensor is. *)
Inductive scalar : Type :=
| Num (q : Q)
| NaN.

(** One call of [self.log(name, value, prog_bar=...)]. *)
Record log_entry := {
  name : string;
  logged : scalar;
  prog_bar : bool
}.

(** [self.log] appends to the metrics the framework collects;
    [prog_bar] defaults to [False]. *)
Definition log (n : string) (v : scalar) (pb : bool) (metrics : list log_entry)
  : list log_entry :=
  metrics ++ [ {| name := n; logged := v; prog_bar := pb |} ].

(** [row.argmax()]: the index of the first largest logit. *)
Fixpoint argmax_from (best : Q) (best_i i : nat) (row : list Q) : nat :=
  match row with
  | [] => best_i
  | x :: rest =>
      if Qle_bool x best then argmax_from best best_i (S i) rest
      else argmax_from x i (S i) rest
  end.

Definition argmax (row : list Q) : nat :=
  match row with
  | [] => 0%nat
  | x :: rest => argmax_from x 0%nat 1%nat rest
  end.

(** [(outputs.argmax(dim=1) == targets)] as a list of booleans. *)
Definition hits (outputs : list (list Q)) (targets : list Z) : list bool :=
  List.map (fun p => (Z.of_nat (argmax (fst p)) =? snd p)%Z)
           (List.combine outputs targets).

(** [.float().mean()] of a boolean tensor. *)
Definition mean_of_bools (bs : list bool) : Q :=
  (inject_Z (Z.of_nat (List.length (List.filter (fun b => b) bs)))
   / inject_Z (Z.of_nat (List.length bs)))%Q.

(** [.float().mean()] as a tensor: not a number on an empty tensor. *)
Definition mean_float (bs : list bool) : scalar :=
  match bs with
  | [] => NaN
  | _ :: _ => Num (mean_of_bools bs)
  end.

(** What [nn.CrossEntropyLoss] and [argmax(dim=1)] accept: one target per
    row of logits, every row with at least one class, and every target a
    class index of its row or the loss's [ignore_index], -100.  On
    anything else one of the two raises. *)
Definition ignore_index : Z := -100.

Definition target_ok (row : list Q) (t : Z) : bool :=
  (0 <? length row)%nat &&
  ((t =? ignore_index)%Z || ((0 <=? t)%Z && (t <? Z.of_nat (length row))%Z)).

Definition batch_ok (outputs : list (list Q)) (targets : list Z) : bool :=
  (length outputs =? length targets)%nat &&
  forallb (fun p => target_ok (fst p) (snd p)) (List.combine outputs targets).

(** Top-1: [t] is the index of a largest logit of the row, the first of
    them when several are equal. *)
Definition top1 (row : list Q) (t : Z) : Prop :=
  exists i : nat,
    t = Z.of_nat i /\ (i < length row)%nat /\
    (forall j, (j < length row)%nat -> (nth j row 0 <= nth i row 0)%Q) /\
    (forall j, (j < i)%nat -> (nth j row 0 < nth i row 0)%Q).

Section Steps.

(** The network and the loss are library objects: [self.model], a
    function of the parameters and the image batch to one row of logits
    per image, and [self.criterion], [nn.CrossEntropyLoss()], whose value
    on an accepted batch is a scalar. *)
Variable Images : Type.
Variable model : list Q -> Images -> list (list Q).
Variable criterion : list (list Q) -> list Z -> scalar.

(** The module's state: the parameters and the metrics logged so far. *)
Record module := {
  parameters : list Q;
  metrics : list log_entry
}.

Definition forward (self : module) (x : Images) : list (list Q) :=
  model (parameters self) x.

Definition with_metrics (self : module) (m : list log_entry) : module :=
  {| parameters := parameters self; metrics := m |}.

(** [self.criterion(outputs, targets)], raising on a batch it rejects. *)
Definition call_criterion (outputs : list (list Q)) (targets : list Z)
  : option scalar :=
  if batch_ok outputs targets then Some (criterion outputs targets) else None.

(** [training_step(self, batch, batch_idx)]: [None] when the step raises,
    otherwise the returned loss and the module afterwards. *)
Definition training_step (self : module) (batch : Images * list Z) (batch_idx : Z)
  : option (option scalar * module) :=
  let '(images, targets) := batch in
  let outputs := forward self images in
  loss ← call_criterion outputs targets;
  let acc := mean_float (hits outputs targets) in
  let self1 := with_metrics self (log "train_loss" loss false (metrics self)) in
  let self2 := with_metrics self1 (log "train_acc" acc true (metrics self1)) in
  Some (Some loss, self2).

(** [validation_step(self, batch, batch_idx)]: falls off the end, so a
    call that does not raise evaluates to Python's [None]. *)
Definition validation_step (self : module) (batch : Images * list Z) (batch_idx : Z)
  : option (option scalar * module) :=
  let '(images, targets) := batch in
  let outputs := forward self images in
  loss ← call_criterion outputs targets;
  let acc := mean_float (hits outputs targets) in
  let self1 := with_metrics self (log "val_loss" loss true (metrics self)) in
  let self2 := with_metrics self1 (log "val_acc" acc true (metrics self1)) in
  Some (None, self2).

End Steps.

(** [torch.optim.SGD(params, lr=..., momentum=..., weight_decay=...)] *)
Record SGD := {
  sgd_lr : Q;
  sgd_momentum : Q;
  sgd_weight_decay : Q
}.

(** [torch.optim.lr_scheduler.StepLR(optimizer, step_size=..., gamma=...)];
    [last_epoch] starts at 0. *)
Record StepLR := {
  optimizer : SGD;
  step_size : Z;
  sched_gamma : Q;
  last_epoch : Z
}.

(** [configure_optimizers(self)]: reads [self.hparams], the saved [args]. *)
Definition configure_optimizers (hparams : Args) : list SGD * list StepLR :=
  let optimizer := {| sgd_lr := lr hparams;
                      sgd_momentum := momentum hparams;
                      sgd_weight_decay := weight_decay hparams |} in
  let scheduler := {| optimizer := optimizer; step_size := 1;
                      sched_gamma := 97 # 100; last_epoch := 0 |} in
  ([optimizer], [scheduler]).

(** [StepLR.step()], which the framework calls once at the end of every
    epoch: [last_epoch] advances, and the optimizer's learning rate is
    multiplied by [gamma] whenever the new [last_epoch] is a multiple of
    [step_size]. *)
Definition StepLR_step (s : StepLR) : StepLR :=
  let e := last_epoch s + 1 in
  let o := optimizer s in
  let lr' := if (e mod step_size s =? 0)%Z then (sgd_lr o * sched_gamma s)%Q
             else sgd_lr o in
  {| optimizer := {| sgd_lr := lr'; sgd_momentum := sgd_momentum o;
                     sgd_weight_decay := sgd_weight_decay o |};
     step_size := step_size s; sched_gamma := sched_gamma s; last_epoch := e |}.

(** The learning rate in force during epoch [n]. *)
Definition lr_at_epoch (hparams : Args) (n : nat) : list Q :=
  List.map (fun s => sgd_lr (optimizer (Nat.iter n StepLR_step s)))
           (snd (configure_optimizers hparams)).

End Classifier.

(** ** The training driver: [pl.Trainer(...)] *)

Module Driver.
Import Config Callback.









Section Fit.
Variable train_epoch : list Q -> list Q.

Definition after_epoch (w : world) : world :=
  {| heap := heap w; model_parameters := train_epoch (model_parameters w);
     args := args w; stdout := stdout w |}.

Fixpoint fit_from (cb : RemoveCataractTransformCallback) (first : Z) (n : nat)
    (w : world) : option world :=
  match n with
  | O => Some w
  | S n' =>
      w1 ← on_train_epoch_start cb {| current_epoch := first |} w;
      fit_from cb (first + 1) n' (after_epoch w1)
  end.




End Fit.


End Driver.


(** ** The model factory: [create_modified_resnet18] *)

Module Model.

(** The layer objects the factory builds or replaces, with their
    constructor arguments.  [nn.Linear] has [bias=True] by default. *)
Inductive layer : Type :=
| Conv2d (in_channels out_channels kernel_size stride padding : nat) (bias : bool)
| MaxPool2d (kernel_size stride padding : nat)
| Identity
| Linear (in_features out_features : nat) (bias : bool).

(** Output length of one spatial axis of a convolution or pooling window
    (dilation 1, floor mode): [(size + 2 * padding - kernel) / stride + 1].
    A window larger than the padded input, or a zero stride, raises. *)
Definition window_out (size kernel stride padding : nat) : option nat :=
  if ((0 <? stride) && (kernel <=? size + 2 * padding))%nat
  then Some ((size + 2 * padding - kernel) / stride + 1)%nat
  else None.

(** The size of a layer's output for an input of the given size, [None]
    where the layer raises: a convolution wants its own number of input
    channels, batched or not; pooling wants padding of at most half the
    window; a linear map wants its own number of features last. *)
Definition output_size (l : layer) (sz : list nat) : option (list nat) :=
  match l with
  | Conv2d cin cout k s p _ =>
      match sz with
      | [n; c; h; w] =>
          if (c =? cin)%nat then
            h' ← window_out h k s p; w' ← window_out w k s p;
            Some [n; cout; h'; w']
          else None
      | [c; h; w] =>
          if (c =? cin)%nat then
            h' ← window_out h k s p; w' ← window_out w k s p;
            Some [cout; h'; w']
          else None
      | _ => None
      end
  | MaxPool2d k s p =>
      if (2 * p <=? k)%nat then
        match sz with
        | [n; c; h; w] =>
            h' ← window_out h k s p; w' ← window_out w k s p;
            Some [n; c; h'; w']
        | [c; h; w] =>
            h' ← window_out h k s p; w' ← window_out w k s p;
            Some [c; h'; w']
        | _ => None
        end
      else None
  | Identity => Some sz
  | Linear fin fout _ =>
      match List.rev sz with
      | last :: front =>
          if (last =? fin)%nat then Some (List.rev (fout :: front)) else None
      | [] => None
      end
  end.

(** [l.in_features]: an attribute of [nn.Linear] only. *)
Definition in_features_of (l : layer) : option nat :=
  match l with
  | Linear fin _ _ => Some fin
  | _ => None
  end.

Section Network.

(** The modules of the network that the factory leaves alone (the
    normalisation, the activation, the four residual stages, the average
    pooling) are of a type of their own. *)
Variable Block : Type.

(** A [torchvision] [ResNet] object: its attributes, in forward order. *)
Record ResNet := {
  conv1 : layer;
  bn1 : Block;
  relu : Block;
  maxpool : layer;
  layer1 : Block;
  layer2 : Block;
  layer3 : Block;
  layer4 : Block;
  avgpool : Block;
  fc : layer
}.

Definition set_conv1 (m : ResNet) (l : layer) : ResNet :=
  {| conv1 := l; bn1 := bn1 m; relu := relu m; maxpool := maxpool m;
     layer1 := layer1 m; layer2 := layer2 m; layer3 := layer3 m;
     layer4 := layer4 m; avgpool := avgpool m; fc := fc m |}.

Definition set_maxpool (m : ResNet) (l : layer) : ResNet :=
  {| conv1 := conv1 m; bn1 := bn1 m; relu := relu m; maxpool := l;
     layer1 := layer1 m; layer2 := layer2 m; layer3 := layer3 m;
     layer4 := layer4 m; avgpool := avgpool m; fc := fc m |}.

Definition set_fc (m : ResNet) (l : layer) : ResNet :=
  {| conv1 := conv1 m; bn1 := bn1 m; relu := relu m; maxpool := maxpool m;
     layer1 := layer1 m; layer2 := layer2 m; layer3 := layer3 m;
     layer4 := layer4 m; avgpool := avgpool m; fc := l |}.

(** [create_modified_resnet18()].  The network returned by
    [models.resnet18()] is the argument. *)
Definition create_modified_resnet18 (resnet18 : ResNet) : option ResNet :=
  let model := resnet18 in
  let model := set_conv1 model (Conv2d 3 64 3 1 1 false) in
  let model := set_maxpool model Identity in
  num_features ← in_features_of (fc model);
  Some (set_fc model (Linear num_features 10 true)).

End Network.

Arguments conv1 {Block} _.
Arguments bn1 {Block} _.
Arguments relu {Block} _.
Arguments maxpool {Block} _.
Arguments layer1 {Block} _.
Arguments layer2 {Block} _.
Arguments layer3 {Block} _.
Arguments layer4 {Block} _.
Arguments avgpool {Block} _.
Arguments fc {Block} _.
Arguments set_conv1 {Block} _ _.
Arguments set_maxpool {Block} _ _.
Arguments set_fc {Block} _ _.
Arguments create_modified_resnet18 {Block} _.

(** The three attributes of [torchvision]'s [resnet18()] that the factory
    reads or replaces, on a network whose other modules are left
    unspecified. *)
Definition generic_resnet18 : ResNet unit :=
  {| conv1 := Conv2d 3 64 7 2 3 false; bn1 := tt; relu := tt;
     maxpool := MaxPool2d 3 2 1;
     layer1 := tt; layer2 := tt; layer3 := tt; layer4 := tt; avgpool := tt;
     fc := Linear 512 1000 true |}.

End Model.

(** * Properties *)

(** ** The list comprehension of the callback *)

Module PipelineFacts.
Import Pipeline.

Lemma without_DownUpSample_app (l1 l2 : list transform) :
  without_DownUpSample (l1 ++ l2) =
  without_DownUpSample l1 ++ without_DownUpSample l2.
Proof. apply List.filter_app. Qed.

Lemma without_DownUpSample_In (t : transform) (ts : list transform) :
  In t (without_DownUpSample ts) <->
  In t ts /\ isinstance_DownUpSampleTransform t = false.
Proof.
  unfold without_DownUpSample. rewrite List.filter_In.
  destruct (isinstance_DownUpSampleTransform t); simpl; intuition congruence.
Qed.

Lemma without_DownUpSample_clean (ts : list transform) :
  forallb (fun t => negb (isinstance_DownUpSampleTransform t))
          (without_DownUpSample ts) = true.
Proof.
  induction ts as [|t ts IH]; simpl; [reflexivity|].
  destruct (isinstance_DownUpSampleTransform t) eqn:E; simpl; [exact IH|].
  rewrite E. exact IH.
Qed.

Lemma without_DownUpSample_sublist (ts : list transform) :
  sublist (without_DownUpSample ts) ts.
Proof.
  induction ts as [|t ts IH]; simpl; [constructor|].
  destruct (negb (isinstance_DownUpSampleTransform t));
    [apply sublist_skip | apply sublist_cons]; exact IH.
Qed.

Lemma without_DownUpSample_fixed (ts : list transform) :
  forallb (fun t => negb (isinstance_DownUpSampleTransform t)) ts = true ->
  without_DownUpSample ts = ts.
Proof.
  induction ts as [|t ts IH]; simpl; [reflexivity|].
  intros H. apply andb_prop in H as [Ht Hts].
  rewrite Ht. f_equal. exact (IH Hts).
Qed.

Lemma without_DownUpSample_twice (ts : list transform) :
  without_DownUpSample (without_DownUpSample ts) = without_DownUpSample ts.
Proof. apply without_DownUpSample_fixed, without_DownUpSample_clean. Qed.

End PipelineFacts.

(** ** The deficit-removal hook *)

Module CallbackFacts.
Import Config Pipeline Callback PipelineFacts.

Lemma fresh_not_live (h : gmap loc obj) : h !! fresh (dom h) = None.
Proof. apply not_elem_of_dom, is_fresh. Qed.

(** When the guard fails the hook is the identity on the world. *)
Lemma hook_skips self trainer w :
  current_epoch trainer <> t0 self ->
  on_train_epoch_start self trainer w = Some w.
Proof.
  intros Hne. unfold on_train_epoch_start.
  destruct (Z.eqb_spec (current_epoch trainer) (t0 self)); [contradiction|reflexivity].
Qed.

(** What a firing hook did, read off a successful call. *)
Lemma hook_fires_inv self trainer w w' :
  current_epoch trainer = t0 self ->
  on_train_epoch_start self trainer w = Some w' ->
  exists root train r ts,
    heap w !! train_dataset self = Some (OCIFAR10 root train r) /\
    heap w !! r = Some (OCompose ts) /\
    heap w' = <[train_dataset self := OCIFAR10 root train (fresh (dom (heap w)))]>
                (<[fresh (dom (heap w)) := OCompose (without_DownUpSample ts)]> (heap w)) /\
    model_parameters w' = model_parameters w /\
    args w' = args w /\
    stdout w' = stdout w ++ [notice (t0 self)].
Proof.
  intros He. unfold on_train_epoch_start. rewrite He, Z.eqb_refl.
  unfold get_transform, get_transforms, alloc, set_transform.
  destruct (heap w !! train_dataset self) as [[|root train r]|] eqn:Hds; simpl; try discriminate.
  destruct (heap w !! r) as [[ts|]|] eqn:Hr; simpl; try discriminate.
  assert (Hfresh : train_dataset self <> fresh (dom (heap w))).
  { intros E. pose proof (fresh_not_live (heap w)) as F. rewrite <- E in F. congruence. }
  rewrite lookup_insert_ne by (intros E; apply Hfresh; symmetry; exact E).
  rewrite Hds. simpl. intros [= <-].
  exists root, train, r, ts. simpl. repeat split; auto.
Qed.

(** An attached hook raises nothing. *)
Lemma hook_total self trainer w :
  attached self w -> is_Some (on_train_epoch_start self trainer w).
Proof.
  intros [ts Hts]. unfold on_train_epoch_start.
  destruct (current_epoch trainer =? t0 self)%Z; [|eexists; reflexivity].
  unfold pipeline_of in Hts.
  destruct (get_transform (heap w) (train_dataset self)) as [r|] eqn:Hr; simpl in *; [|discriminate].
  rewrite Hts. simpl. unfold alloc, set_transform.
  unfold get_transform in Hr.
  destruct (heap w !! train_dataset self) as [[|root train r']|] eqn:Hds; try discriminate.
  assert (Hfresh : train_dataset self <> fresh (dom (heap w))).
  { intros E. pose proof (fresh_not_live (heap w)) as F. rewrite <- E in F. congruence. }
  rewrite lookup_insert_ne by (intros E; apply Hfresh; symmetry; exact E).
  rewrite Hds. simpl. eexists; reflexivity.
Qed.

(** The pipeline of the callback's dataset after a firing. *)
Lemma hook_fires_pipeline self trainer w w' :
  current_epoch trainer = t0 self ->
  on_train_epoch_start self trainer w = Some w' ->
  pipeline_of (heap w') (train_dataset self) =
  without_DownUpSample <$> pipeline_of (heap w) (train_dataset self).
Proof.
  intros He Hrun.
  destruct (hook_fires_inv _ _ _ _ He Hrun) as (root & train & r & ts & Hds & Hr & Hh & _).
  unfold pipeline_of, get_transform, get_transforms. rewrite Hh, Hds. simpl.
  rewrite lookup_insert_eq. simpl.
  destruct (decide (train_dataset self = fresh (dom (heap w)))) as [E|NE].
  - pose proof (fresh_not_live (heap w)) as F. rewrite <- E in F. congruence.
  - rewrite lookup_insert_ne by exact NE.
    rewrite lookup_insert_eq, Hr. reflexivity.
Qed.

(** Objects other than the callback's dataset keep their value. *)
Lemma hook_frame_heap self trainer w w' l :
  on_train_epoch_start self trainer w = Some w' ->
  l <> train_dataset self -> is_Some (heap w !! l) ->
  heap w' !! l = heap w !! l.
Proof.
  intros Hrun Hl Hlive.
  destruct (Z.eq_dec (current_epoch trainer) (t0 self)) as [He|Hne].
  - destruct (hook_fires_inv _ _ _ _ He Hrun) as (root & train & r & ts & _ & _ & Hh & _).
    rewrite Hh. rewrite lookup_insert_ne by (intros E; apply Hl; symmetry; exact E).
    rewrite lookup_insert_ne; [reflexivity|].
    intros E. rewrite <- E, fresh_not_live in Hlive. destruct Hlive; discriminate.
  - rewrite (hook_skips _ _ _ Hne) in Hrun. injection Hrun as <-. reflexivity.
Qed.

(** The callback's dataset stays a dataset, with the same [root] and
    [train] fields. *)
Lemma hook_keeps_dataset_fields self trainer w w' root train r :
  on_train_epoch_start self trainer w = Some w' ->
  heap w !! train_dataset self = Some (OCIFAR10 root train r) ->
  exists r', heap w' !! train_dataset self = Some (OCIFAR10 root train r').
Proof.
  intros Hrun Hds.
  destruct (Z.eq_dec (current_epoch trainer) (t0 self)) as [He|Hne].
  - destruct (hook_fires_inv _ _ _ _ He Hrun) as (root' & train' & r' & ts & Hds' & _ & Hh & _).
    rewrite Hds in Hds'. injection Hds' as <- <- <-.
    rewrite Hh, lookup_insert_eq. eexists; reflexivity.
  - rewrite (hook_skips _ _ _ Hne) in Hrun. injection Hrun as <-. eauto.
Qed.

(** A dataset other than the callback's applies the same steps after the
    hook as before, also when its pipeline object is the one the
    callback's dataset referred to. *)
Lemma hook_frame_pipeline self trainer w w' ds :
  on_train_epoch_start self trainer w = Some w' ->
  ds <> train_dataset self ->
  is_Some (pipeline_of (heap w) ds) ->
  pipeline_of (heap w') ds = pipeline_of (heap w) ds.
Proof.
  intros Hrun Hds [ts Hts].
  destruct (Z.eq_dec (current_epoch trainer) (t0 self)) as [He|Hne];
    [|rewrite (hook_skips _ _ _ Hne) in Hrun; injection Hrun as <-; reflexivity].
  destruct (hook_fires_inv _ _ _ _ He Hrun) as (? & ? & ? & ? & Hx & _).
  unfold pipeline_of, get_transform, get_transforms in *.
  destruct (heap w !! ds) as [[|root train r]|] eqn:Hd; simpl in Hts; try discriminate.
  rewrite (hook_frame_heap _ _ _ _ ds Hrun Hds) by (rewrite Hd; eauto).
  rewrite Hd. simpl.
  destruct (heap w !! r) as [[ts'|]|] eqn:Hr; try discriminate.
  rewrite (hook_frame_heap _ _ _ _ r Hrun).
  - rewrite Hr. reflexivity.
  - intros E. subst r. congruence.
  - rewrite Hr. eauto.
Qed.

End CallbackFacts.

(** ** Claims about the deficit-removal hook *)

Module HookClaims.
Import Config Pipeline Callback PipelineFacts CallbackFacts.

(** C1.  The hook, called at the start of an epoch on a world where the
    callback's dataset is attached, returns normally, and it fires exactly
    when the epoch index equals [t0]: at [t0] it prints its notice and
    installs the filtered pipeline; at any other index, below or above
    [t0], it returns the world it was given, so the training dataset's
    pipeline is unchanged; and the world is unchanged only then. *)
Theorem hook_fires_exactly_at_t0 self trainer w :
  attached self w ->
  exists w',
    on_train_epoch_start self trainer w = Some w' /\
    (current_epoch trainer = t0 self ->
       stdout w' = stdout w ++ [notice (t0 self)] /\
       pipeline_of (heap w') (train_dataset self) =
       without_DownUpSample <$> pipeline_of (heap w) (train_dataset self)) /\
    (current_epoch trainer < t0 self \/ t0 self < current_epoch trainer ->
       w' = w /\
       pipeline_of (heap w') (train_dataset self) =
       pipeline_of (heap w) (train_dataset self)) /\
    (w' = w <-> current_epoch trainer <> t0 self).
Proof.
  intros Hatt.
  destruct (hook_total self trainer w Hatt) as [w' Hrun].
  exists w'. split; [exact Hrun|].
  destruct (Z.eq_dec (current_epoch trainer) (t0 self)) as [He|Hne].
  - destruct (hook_fires_inv _ _ _ _ He Hrun) as (? & ? & ? & ? & _ & _ & _ & _ & _ & Hout).
    split; [|split].
    + intros _. split; [exact Hout|]. eapply hook_fires_pipeline; eauto.
    + lia.
    + split; [|contradiction].
      intros ->. exfalso.
      apply (f_equal (@List.length _)) in Hout. rewrite List.length_app in Hout.
      simpl in Hout. lia.
  - rewrite (hook_skips _ _ _ Hne) in Hrun. injection Hrun as <-.
    split; [contradiction|]. split; [auto|]. split; auto.
Qed.

Lemma hook_fires_exactly_at_t0_witness :
  attached (the_callback default_args) (initial_world default_args []) /\
  exists w',
    on_train_epoch_start (the_callback default_args) {| current_epoch := 0 |}
      (initial_world default_args []) = Some w' /\
    stdout w' = ["Removed DownUpSampleTransform at epoch 0."].
Proof.
  assert (H : attached (the_callback default_args) (initial_world default_args [])).
  { exists train_transforms. vm_compute. reflexivity. }
  split; [exact H|].
  destruct (hook_fires_exactly_at_t0 (the_callback default_args)
              {| current_epoch := 0 |} (initial_world default_args []) H)
    as (w' & Hrun & Hfire & _).
  exists w'. split; [exact Hrun|].
  destruct (Hfire eq_refl) as [Hout _]. rewrite Hout. vm_compute. reflexivity.
Defined.

(** C2.  When the hook fires on a dataset whose pipeline is [ts], the
    dataset's pipeline afterwards is [ts] with every
    [DownUpSampleTransform] step left out and the other steps in their
    original order: no step of the result is a blur-resample, every other
    step of [ts] stays between the same neighbours, and the result is a
    subsequence of [ts].  From the initial training pipeline the result is
    flip, translate, to-tensor, normalize. *)
Theorem hook_removes_every_DownUpSample self trainer w ts :
  current_epoch trainer = t0 self ->
  pipeline_of (heap w) (train_dataset self) = Some ts ->
  exists w' ts',
    on_train_epoch_start self trainer w = Some w' /\
    pipeline_of (heap w') (train_dataset self) = Some ts' /\
    (forall t, In t ts' <-> In t ts /\ isinstance_DownUpSampleTransform t = false) /\
    (forall l1 t l2, ts = l1 ++ t :: l2 ->
       isinstance_DownUpSampleTransform t = false ->
       ts' = without_DownUpSample l1 ++ t :: without_DownUpSample l2) /\
    (forall l1 t l2, ts = l1 ++ t :: l2 ->
       isinstance_DownUpSampleTransform t = true ->
       ts' = without_DownUpSample l1 ++ without_DownUpSample l2) /\
    sublist ts' ts /\
    (ts = train_transforms ->
       ts' = [ RandomHorizontalFlip (1 # 2); RandomAffine 0 (4 # 32, 4 # 32)%Q;
               ToTensor; Normalize cifar10_mean cifar10_std ]).
Proof.
  intros He Hts.
  destruct (hook_total self trainer w) as [w' Hrun].
  { exists ts. exact Hts. }
  exists w', (without_DownUpSample ts). split; [exact Hrun|].
  split.
  { rewrite (hook_fires_pipeline _ _ _ _ He Hrun), Hts. reflexivity. }
  split; [intros t; apply without_DownUpSample_In|].
  split.
  { intros l1 t l2 -> Ht. rewrite without_DownUpSample_app. simpl. rewrite Ht. reflexivity. }
  split.
  { intros l1 t l2 -> Ht. rewrite without_DownUpSample_app. simpl. rewrite Ht. reflexivity. }
  split; [apply without_DownUpSample_sublist|].
  intros ->. reflexivity.
Qed.

Lemma hook_removes_every_DownUpSample_witness :
  pipeline_of (heap (initial_world default_args [])) train_dataset_loc
    = Some train_transforms /\
  exists w',
    on_train_epoch_start (the_callback default_args) {| current_epoch := 0 |}
      (initial_world default_args []) = Some w' /\
    pipeline_of (heap w') train_dataset_loc =
      Some [ RandomHorizontalFlip (1 # 2); RandomAffine 0 (4 # 32, 4 # 32)%Q;
             ToTensor; Normalize cifar10_mean cifar10_std ].
Proof.
  assert (H : pipeline_of (heap (initial_world default_args [])) train_dataset_loc
              = Some train_transforms) by (vm_compute; reflexivity).
  split; [exact H|].
  destruct (hook_removes_every_DownUpSample (the_callback default_args)
              {| current_epoch := 0 |} (initial_world default_args [])
              train_transforms eq_refl H)
    as (w' & ts' & Hrun & Hp & _ & _ & _ & _ & Hinit).
  exists w'. split; [exact Hrun|]. rewrite <- (Hinit eq_refl). exact Hp.
Defined.

(** C9.  The pipeline rewriting is idempotent: a list of steps without a
    blur-resample step is returned as it is, filtering a filtered list
    changes nothing, and a second firing of the hook after a first one
    leaves the dataset with the same sequence of steps. *)
Theorem removal_is_idempotent self trainer w w1 ts :
  current_epoch trainer = t0 self ->
  on_train_epoch_start self trainer w = Some w1 ->
  (forallb (fun t => negb (isinstance_DownUpSampleTransform t)) ts = true ->
     without_DownUpSample ts = ts) /\
  without_DownUpSample (without_DownUpSample ts) = without_DownUpSample ts /\
  exists w2,
    on_train_epoch_start self trainer w1 = Some w2 /\
    pipeline_of (heap w2) (train_dataset self) =
    pipeline_of (heap w1) (train_dataset self).
Proof.
  intros He Hrun.
  split; [apply without_DownUpSample_fixed|].
  split; [apply without_DownUpSample_twice|].
  pose proof (hook_fires_pipeline _ _ _ _ He Hrun) as Hp1.
  destruct (hook_fires_inv _ _ _ _ He Hrun) as (root & train & r & ts0 & Hds & Hr & _).
  assert (Hp0 : pipeline_of (heap w) (train_dataset self) = Some ts0).
  { unfold pipeline_of, get_transform, get_transforms. rewrite Hds. simpl.
    rewrite Hr. reflexivity. }
  rewrite Hp0 in Hp1. simpl in Hp1.
  destruct (hook_total self trainer w1) as [w2 Hrun2].
  { eexists. exact Hp1. }
  exists w2. split; [exact Hrun2|].
  rewrite (hook_fires_pipeline _ _ _ _ He Hrun2), Hp1. simpl.
  rewrite without_DownUpSample_twice. reflexivity.
Qed.

Lemma removal_is_idempotent_witness :
  exists w1 w2,
    on_train_epoch_start (the_callback default_args) {| current_epoch := 0 |}
      (initial_world default_args []) = Some w1 /\
    on_train_epoch_start (the_callback default_args) {| current_epoch := 0 |}
      w1 = Some w2 /\
    pipeline_of (heap w2) train_dataset_loc = pipeline_of (heap w1) train_dataset_loc /\
    without_DownUpSample test_transforms = test_transforms.
Proof.
  destruct (on_train_epoch_start (the_callback default_args) {| current_epoch := 0 |}
              (initial_world default_args [])) as [w1|] eqn:Hrun;
    [|vm_compute in Hrun; discriminate].
  destruct (removal_is_idempotent (the_callback default_args)
              {| current_epoch := 0 |} (initial_world default_args []) w1
              test_transforms eq_refl Hrun)
    as (Hfix & _ & w2 & Hrun2 & Hp).
  exists w1, w2. split; [reflexivity|]. split; [exact Hrun2|].
  split; [exact Hp|]. apply Hfix. reflexivity.
Defined.

(** C10.  The hook writes only the [transform] field of the callback's
    dataset.  At every epoch, on an attached world, it returns a world with
    the same configuration values and the same model parameters, in which
    every other live object is unchanged, every other dataset (the
    evaluation dataset among them) applies the same pipeline, and the
    callback's dataset keeps its [root] and [train] fields. *)
Theorem hook_changes_only_train_transform self trainer w :
  attached self w ->
  exists w',
    on_train_epoch_start self trainer w = Some w' /\
    args w' = args w /\
    model_parameters w' = model_parameters w /\
    (forall l, l <> train_dataset self -> is_Some (heap w !! l) ->
       heap w' !! l = heap w !! l) /\
    (forall ds, ds <> train_dataset self -> is_Some (pipeline_of (heap w) ds) ->
       pipeline_of (heap w') ds = pipeline_of (heap w) ds) /\
    (forall root train r,
       heap w !! train_dataset self = Some (OCIFAR10 root train r) ->
       exists r', heap w' !! train_dataset self = Some (OCIFAR10 root train r')).
Proof.
  intros Hatt.
  destruct (hook_total self trainer w Hatt) as [w' Hrun].
  exists w'. split; [exact Hrun|].
  assert (Hrest : args w' = args w /\ model_parameters w' = model_parameters w).
  { destruct (Z.eq_dec (current_epoch trainer) (t0 self)) as [He|Hne].
    - destruct (hook_fires_inv _ _ _ _ He Hrun) as (? & ? & ? & ? & _ & _ & _ & Hm & Ha & _).
      auto.
    - rewrite (hook_skips _ _ _ Hne) in Hrun. injection Hrun as <-. auto. }
  destruct Hrest as [Ha Hm].
  split; [exact Ha|]. split; [exact Hm|].
  split; [intros l; apply (hook_frame_heap _ _ _ _ l Hrun)|].
  split; [intros ds; apply (hook_frame_pipeline _ _ _ _ ds Hrun)|].
  intros root train r. eapply hook_keeps_dataset_fields; exact Hrun.
Qed.

Lemma hook_changes_only_train_transform_witness :
  attached (the_callback default_args) (initial_world default_args [1 # 3]%Q) /\
  exists w',
    on_train_epoch_start (the_callback default_args) {| current_epoch := 0 |}
      (initial_world default_args [1 # 3]%Q) = Some w' /\
    args w' = default_args /\
    model_parameters w' = [1 # 3]%Q /\
    pipeline_of (heap w') val_dataset_loc = Some test_transforms /\
    heap w' !! train_transforms_loc = Some (OCompose train_transforms).
Proof.
  assert (H : attached (the_callback default_args) (initial_world default_args [1 # 3]%Q)).
  { exists train_transforms. vm_compute. reflexivity. }
  split; [exact H|].
  destruct (hook_changes_only_train_transform (the_callback default_args)
              {| current_epoch := 0 |} (initial_world default_args [1 # 3]%Q) H)
    as (w' & Hrun & Ha & Hm & Hheap & Hpipe & _).
  exists w'. split; [exact Hrun|]. split; [exact Ha|]. split; [exact Hm|]. split.
  - rewrite (Hpipe val_dataset_loc).
    + vm_compute. reflexivity.
    + vm_compute. discriminate.
    + exists test_transforms. vm_compute. reflexivity.
  - rewrite (Hheap train_transforms_loc).
    + vm_compute. reflexivity.
    + vm_compute. discriminate.
    + eexists. vm_compute. reflexivity.
Defined.

End HookClaims.

(** ** The blur-resample transform *)

Module BlurFacts.
Import Blur.

Lemma length_flat_map_const {A B} (f : A -> list B) (l : list A) (k : nat) :
  (forall a, length (f a) = k) -> length (flat_map f l) = (length l * k)%nat.
Proof.
  intros Hf. induction l as [|a l IH]; simpl; [reflexivity|].
  rewrite List.length_app, Hf, IH. reflexivity.
Qed.

Lemma length_bilinear planes h w oh ow d :
  length (bilinear planes h w oh ow d) = (planes * oh * ow)%nat.
Proof.
  unfold bilinear.
  rewrite (length_flat_map_const _ _ (oh * ow)).
  - rewrite List.length_seq. lia.
  - intros plane. rewrite (length_flat_map_const _ _ ow).
    + rewrite List.length_seq. reflexivity.
    + intros oy. rewrite List.length_map, List.length_seq. reflexivity.
Qed.

(** [F.interpolate] on a live 4-D tensor with non-empty channel and
    spatial dimensions: a new storage is appended and a tensor of size
    [n, c, oh, ow] on it is returned. *)
Lemma interpolate_ok (s : store) t n c h w oh ow d :
  size t = [n; c; h; w] -> s !! storage t = Some d ->
  (0 < c)%nat -> (0 < h)%nat -> (0 < w)%nat -> (0 < oh)%nat -> (0 < ow)%nat ->
  interpolate t oh ow s =
    Some ({| storage := length s; size := [n; c; oh; ow] |},
          s ++ [bilinear (n * c) h w oh ow d]).
Proof.
  intros Hsz Hd Hc Hh Hw Hoh How.
  unfold interpolate, bind, read. rewrite Hd, Hsz.
  apply Nat.ltb_lt in Hc, Hh, Hw, Hoh, How.
  rewrite Hc, Hh, Hw, Hoh, How. reflexivity.
Qed.

(** The whole call on an image: two storages are appended, the 8 by 8
    intermediate and the 32 by 32 result, and the returned tensor views the
    latter with size [c, 32, 32]. *)
Lemma call_ok (s : store) img c h w d :
  size img = [c; h; w] -> s !! storage img = Some d ->
  (0 < c)%nat -> (0 < h)%nat -> (0 < w)%nat ->
  DownUpSampleTransform_call img s =
    Some ({| storage := S (length s); size := [c; 32; 32]%nat |},
          s ++ [ bilinear (1 * c) h w 8 8 d;
                 bilinear (1 * c) 8 8 32 32 (bilinear (1 * c) h w 8 8 d) ]).
Proof.
  intros Hsz Hd Hc Hh Hw.
  unfold DownUpSampleTransform_call, bind at 1, unsqueeze0, ret at 1.
  unfold bind at 1.
  rewrite (interpolate_ok s _ 1 c h w 8 8 d); simpl; try lia; try (rewrite Hsz; reflexivity); auto.
  unfold bind at 1.
  rewrite (interpolate_ok _ _ 1 c 8 8 32 32 (bilinear (c + 0) h w 8 8 d)); simpl; try lia; auto.
  - unfold squeeze0, ret. simpl. rewrite List.length_app. simpl.
    rewrite <- List.app_assoc. simpl. f_equal. f_equal. f_equal. lia.
  - apply list_lookup_middle. reflexivity.
Qed.

(** Appending storages does not change what the old tensors denote. *)
Lemma value_app (s extra : store) t :
  is_Some (value s t) -> value (s ++ extra) t = value s t.
Proof.
  unfold value. intros [v Hv].
  destruct (s !! storage t) as [d|] eqn:Hd; simpl in *; [|discriminate].
  rewrite (lookup_app_l_Some _ _ _ _ Hd). reflexivity.
Qed.

End BlurFacts.

Module BlurClaims.
Import Blur BlurFacts.

Lemma image_zeros_3x16x16 : image zeros_3x16x16 img_3x16x16 3 16 16.
Proof.
  unfold image. simpl. repeat (split; [first [reflexivity | lia]|]).
  eexists. split; reflexivity.
Qed.

Lemma image_a : image store_a img_a 1 2 2.
Proof.
  unfold image. simpl. repeat (split; [first [reflexivity | lia]|]).
  eexists. split; reflexivity.
Qed.

(** C3, as stated, fails: a 3 by 16 by 16 image comes back 3 by 32 by 32,
    so not every 3 by H by W input is returned with its own shape. *)
Lemma blur_does_not_keep_every_shape :
  ~ (forall s img h w, image s img 3 h w ->
       exists out s', DownUpSampleTransform_call img s = Some (out, s') /\
                      size out = [3; h; w]%nat).
Proof.
  intros H.
  destruct (H zeros_3x16x16 img_3x16x16 16%nat 16%nat image_zeros_3x16x16)
    as (out & s' & Hrun & Hsz).
  rewrite (call_ok _ _ 3 16 16 (repeat 0%Q 768)) in Hrun;
    [|reflexivity|reflexivity|lia|lia|lia].
  injection Hrun as <- _. simpl in Hsz. discriminate.
Qed.

(** C3, amended.  On every image of [c] channels, height [h] and width
    [w] (none of them empty) the transform returns normally a live tensor
    of size [c, 32, 32]: its elements are the bilinear resampling, without
    corner alignment, of the input to 8 by 8 and of that to the fixed
    resolution 32 by 32.  The shape equals the input's exactly when the
    input is 32 by 32. *)
Theorem blur_returns_c_by_32_by_32 s img c h w :
  image s img c h w ->
  exists out s' d,
    DownUpSampleTransform_call img s = Some (out, s') /\
    size out = [c; 32; 32]%nat /\
    image s' out c 32 32 /\
    s !! storage img = Some d /\
    s' !! storage out =
      Some (bilinear c 8 8 32 32 (bilinear c h w 8 8 d)) /\
    (size out = size img <-> h = 32%nat /\ w = 32%nat).
Proof.
  intros (Hsz & Hc & Hh & Hw & d & Hd & Hlen).
  eexists _, _, d. split; [apply (call_ok s img c h w d); assumption|].
  rewrite Nat.mul_1_l. simpl.
  assert (Hout : (s ++ [bilinear c h w 8 8 d;
                        bilinear c 8 8 32 32 (bilinear c h w 8 8 d)]) !! S (length s)
                 = Some (bilinear c 8 8 32 32 (bilinear c h w 8 8 d))).
  { replace (s ++ [bilinear c h w 8 8 d;
                   bilinear c 8 8 32 32 (bilinear c h w 8 8 d)])
      with ((s ++ [bilinear c h w 8 8 d]) ++
            [bilinear c 8 8 32 32 (bilinear c h w 8 8 d)])
      by (rewrite <- List.app_assoc; reflexivity).
    apply list_lookup_middle. rewrite List.length_app. simpl. lia. }
  split; [reflexivity|]. split.
  { unfold image. simpl. repeat (split; [first [reflexivity | lia]|]).
    eexists. split; [exact Hout|]. apply length_bilinear. }
  split; [exact Hd|]. split; [exact Hout|].
  rewrite Hsz. split.
  - intros [= <- <-]. auto.
  - intros [-> ->]. reflexivity.
Qed.

Lemma blur_returns_c_by_32_by_32_witness :
  image zeros_3x16x16 img_3x16x16 3 16 16 /\
  exists out s',
    DownUpSampleTransform_call img_3x16x16 zeros_3x16x16 = Some (out, s') /\
    size out = [3; 32; 32]%nat.
Proof.
  split; [exact image_zeros_3x16x16|].
  destruct (blur_returns_c_by_32_by_32 zeros_3x16x16 img_3x16x16 3 16 16
              image_zeros_3x16x16) as (out & s' & d & Hrun & Hsz & _).
  exists out, s'. split; [exact Hrun|exact Hsz].
Defined.

(** C4.  The transform is a pure function of the image it is given.  On
    an image it returns normally; a second call, on any tensor object of
    any store that denotes the same image, returns a tensor denoting the
    same result; and the call only adds storages, so every tensor that was
    live before, the input among them, denotes afterwards what it denoted
    before. *)
Theorem blur_is_pure s1 s2 img1 img2 c h w :
  image s1 img1 c h w ->
  value s2 img2 = value s1 img1 ->
  exists out1 s1' out2 s2',
    DownUpSampleTransform_call img1 s1 = Some (out1, s1') /\
    DownUpSampleTransform_call img2 s2 = Some (out2, s2') /\
    value s2' out2 = value s1' out1 /\
    is_Some (value s1' out1) /\
    (forall t, is_Some (value s1 t) -> value s1' t = value s1 t) /\
    value s1' img1 = value s1 img1 /\
    (forall i d, s1 !! i = Some d -> s1' !! i = Some d).
Proof.
  intros Himg Hval.
  pose proof Himg as (Hsz & Hc & Hh & Hw & d & Hd & Hlen).
  assert (Hv1 : value s1 img1 = Some ([c; h; w], d)).
  { unfold value. rewrite Hd, Hsz. reflexivity. }
  rewrite Hv1 in Hval. unfold value in Hval.
  destruct (s2 !! storage img2) as [d2|] eqn:Hd2; simpl in Hval; [|discriminate].
  injection Hval as Hsz2 ->.
  eexists _, _, _, _.
  split; [apply (call_ok s1 img1 c h w d); assumption|].
  split; [apply (call_ok s2 img2 c h w d); assumption|].
  assert (Hlast : forall (s : store) (x y : list Q),
             value (s ++ [x; y]) {| storage := S (length s); size := [c; 32; 32]%nat |}
             = Some ([c; 32; 32]%nat, y)).
  { intros s x y. unfold value, store in *. simpl.
    assert (E : (s ++ [x; y]) !! S (length s) = Some y).
    { replace (s ++ [x; y]) with ((s ++ [x]) ++ [y])
        by (rewrite <- List.app_assoc; reflexivity).
      apply list_lookup_middle. rewrite List.length_app. simpl. lia. }
    rewrite E. reflexivity. }
  rewrite !Hlast.
  split; [reflexivity|]. split; [eexists; reflexivity|].
  split; [intros t; apply value_app|].
  split; [apply value_app; rewrite Hv1; eexists; reflexivity|].
  intros i d' Hi. apply lookup_app_l_Some. exact Hi.
Qed.

Lemma blur_is_pure_witness :
  image store_a img_a 1 2 2 /\
  value store_b img_b = value store_a img_a /\
  exists out1 s1' out2 s2',
    DownUpSampleTransform_call img_a store_a = Some (out1, s1') /\
    DownUpSampleTransform_call img_b store_b = Some (out2, s2') /\
    value s2' out2 = value s1' out1 /\
    value s1' img_a = Some ([1; 2; 2]%nat, [1; 2; 3; 4]%Q).
Proof.
  split; [exact image_a|]. split; [reflexivity|].
  destruct (blur_is_pure store_a store_b img_a img_b 1 2 2 image_a eq_refl)
    as (out1 & s1' & out2 & s2' & H1 & H2 & Hsame & _ & _ & Hin & _).
  exists out1, s1', out2, s2'.
  split; [exact H1|]. split; [exact H2|]. split; [exact Hsame|].
  rewrite Hin. reflexivity.
Defined.

End BlurClaims.

(** ** The pipelines as constructed *)

Module PipelineClaims.
Import Config Pipeline Callback.

(** C5.  The training pipeline is exactly: horizontal flip with
    probability 1/2, affine map without rotation that translates by at most
    4/32 of each side (4 pixels of a 32-pixel side), conversion to tensor,
    blur-resample, normalisation with the fixed CIFAR-10 mean and standard
    deviation; the evaluation pipeline is exactly conversion to tensor and
    the same normalisation, with no augmentation step and no blur step; and
    the training and evaluation datasets are built on these two. *)
Theorem pipelines_as_constructed :
  train_transforms =
    [ RandomHorizontalFlip (1 # 2);
      RandomAffine 0 (4 # 32, 4 # 32)%Q;
      ToTensor;
      DownUpSampleTransform;
      Normalize [4914 # 10000; 4822 # 10000; 4465 # 10000]%Q
                [247 # 1000; 243 # 1000; 261 # 1000]%Q ] /\
  (max_shift (4 # 32) 32 == 4)%Q /\
  test_transforms =
    [ ToTensor;
      Normalize [4914 # 10000; 4822 # 10000; 4465 # 10000]%Q
                [247 # 1000; 243 # 1000; 261 # 1000]%Q ] /\
  forallb (fun t => negb (is_augmentation t)) test_transforms = true /\
  forallb (fun t => negb (isinstance_DownUpSampleTransform t)) test_transforms = true /\
  pipeline_of initial_heap train_dataset_loc = Some train_transforms /\
  pipeline_of initial_heap val_dataset_loc = Some test_transforms.
Proof.
  split; [reflexivity|]. split; [reflexivity|]. split; [reflexivity|].
  split; [reflexivity|]. split; [reflexivity|].
  split; vm_compute; reflexivity.
Qed.

End PipelineClaims.

(** ** The training module *)

Module ClassifierFacts.
Import Config Classifier.

Lemma argmax_from_first (rest pre : list Q) (best : Q) (best_i i : nat) :
  i = length pre -> (best_i < i)%nat ->
  nth best_i pre 0%Q = best ->
  (forall j, (j < length pre)%nat -> (nth j pre 0 <= best)%Q) ->
  (forall j, (j < best_i)%nat -> (nth j pre 0 < best)%Q) ->
  (argmax_from best best_i i rest < length (pre ++ rest))%nat /\
  (forall j, (j < length (pre ++ rest))%nat ->
     (nth j (pre ++ rest) 0 <= nth (argmax_from best best_i i rest) (pre ++ rest) 0)%Q) /\
  (forall j, (j < argmax_from best best_i i rest)%nat ->
     (nth j (pre ++ rest) 0 < nth (argmax_from best best_i i rest) (pre ++ rest) 0)%Q).
Proof.
  revert pre best best_i i.
  induction rest as [|y rest IH]; intros pre best best_i i Hi Hlt Hnth Hmax Hfirst; simpl.
  - rewrite List.app_nil_r, Hnth. split; [lia|]. split; assumption.
  - replace (pre ++ y :: rest) with ((pre ++ [y]) ++ rest)
      by (rewrite <- List.app_assoc; reflexivity).
    assert (Hlen : length (pre ++ [y]) = S (length pre))
      by (rewrite List.length_app; simpl; lia).
    destruct (Qle_bool y best) eqn:Hy.
    + apply Qle_bool_iff in Hy.
      apply IH.
      * lia.
      * lia.
      * rewrite List.app_nth1 by lia. exact Hnth.
      * intros j Hj. rewrite Hlen in Hj.
        destruct (Nat.eq_dec j (length pre)) as [->|Hne].
        -- rewrite List.app_nth2 by lia. rewrite Nat.sub_diag. exact Hy.
        -- rewrite List.app_nth1 by lia. apply Hmax. lia.
      * intros j Hj. rewrite List.app_nth1 by lia. apply Hfirst, Hj.
    + assert (Hby : (best < y)%Q).
      { destruct (Qlt_le_dec best y) as [Hl|Hl]; [exact Hl|].
        apply Qle_bool_iff in Hl. congruence. }
      apply IH.
      * lia.
      * lia.
      * rewrite List.app_nth2 by lia. subst i. rewrite Nat.sub_diag. reflexivity.
      * intros j Hj. rewrite Hlen in Hj.
        destruct (Nat.eq_dec j (length pre)) as [->|Hne].
        -- rewrite List.app_nth2 by lia. rewrite Nat.sub_diag. apply Qle_refl.
        -- rewrite List.app_nth1 by lia.
           apply Qle_trans with best; [apply Hmax; lia|apply Qlt_le_weak, Hby].
      * intros j Hj. rewrite List.app_nth1 by lia.
        apply Qle_lt_trans with best; [apply Hmax; lia|exact Hby].
Qed.

(** [argmax] returns the first position of a largest logit. *)
Lemma argmax_first_largest (row : list Q) :
  row <> [] ->
  (argmax row < length row)%nat /\
  (forall j, (j < length row)%nat -> (nth j row 0 <= nth (argmax row) row 0)%Q) /\
  (forall j, (j < argmax row)%nat -> (nth j row 0 < nth (argmax row) row 0)%Q).
Proof.
  destruct row as [|x rest]; [congruence|]. intros _.
  apply (argmax_from_first rest [x] x 0%nat 1%nat); simpl; auto.
  - intros j Hj. replace j with 0%nat by lia. apply Qle_refl.
  - intros j Hj. lia.
Qed.

(** The comparison of the predicted index with the target succeeds
    exactly on top-1 targets. *)
Lemma argmax_eq_iff_top1 (row : list Q) (t : Z) :
  row <> [] ->
  (Z.of_nat (argmax row) =? t)%Z = true <-> top1 row t.
Proof.
  intros Hrow.
  destruct (argmax_first_largest row Hrow) as (Hlt & Hmax & Hfirst).
  rewrite Z.eqb_eq. split.
  - intros <-. exists (argmax row). auto.
  - intros (i & -> & Hi & Himax & Hifirst). f_equal.
    destruct (Nat.lt_trichotomy (argmax row) i) as [Hl|[He|Hl]]; [|exact He|].
    + exfalso. specialize (Hifirst _ Hl). specialize (Hmax _ Hi).
      apply (Qlt_irrefl (nth i row 0%Q)).
      eapply Qle_lt_trans; [exact Hmax|exact Hifirst].
    + exfalso. specialize (Hfirst _ Hl). specialize (Himax _ Hlt).
      apply (Qlt_irrefl (nth (argmax row) row 0%Q)).
      eapply Qle_lt_trans; [exact Himax|exact Hfirst].
Qed.

Lemma batch_ok_lengths (outputs : list (list Q)) (targets : list Z) :
  batch_ok outputs targets = true -> length outputs = length targets.
Proof.
  unfold batch_ok. intros H. apply andb_prop in H as [H _].
  apply Nat.eqb_eq, H.
Qed.

Lemma hits_are_top1 (outputs : list (list Q)) (targets : list Z) :
  batch_ok outputs targets = true ->
  List.Forall2 (fun b p => b = true <-> top1 (fst p) (snd p))
    (hits outputs targets) (List.combine outputs targets).
Proof.
  unfold batch_ok, hits. intros H. apply andb_prop in H as [_ H].
  induction (List.combine outputs targets) as [|[row t] l IH]; simpl in *;
    [constructor|].
  apply andb_prop in H as [Hp Hl].
  constructor; [|exact (IH Hl)].
  simpl. apply argmax_eq_iff_top1.
  unfold target_ok in Hp. simpl in Hp. apply andb_prop in Hp as [Hrow _].
  apply Nat.ltb_lt in Hrow. destruct row; [simpl in Hrow; lia|discriminate].
Qed.

Lemma count_occ_true (bs : list bool) :
  count_occ Bool.bool_dec bs true = length (List.filter (fun b => b) bs).
Proof.
  induction bs as [|[|] bs IH]; simpl; [reflexivity| |]; rewrite ?IH; reflexivity.
Qed.

(** On a non-empty tensor the mean times the number of elements is the
    number of [True] elements. *)
Lemma mean_float_counts (bs : list bool) :
  bs <> [] ->
  exists q, mean_float bs = Num q /\
    (q * inject_Z (Z.of_nat (length bs)) ==
     inject_Z (Z.of_nat (count_occ Bool.bool_dec bs true)))%Q.
Proof.
  intros Hne. destruct bs as [|b bs]; [congruence|].
  eexists. split; [reflexivity|].
  rewrite count_occ_true. unfold mean_of_bools.
  set (n := inject_Z (Z.of_nat (length (b :: bs)))).
  assert (Hn : ~ (n == 0)%Q).
  { unfold n. change 0%Q with (inject_Z 0). rewrite inject_Z_injective.
    simpl length. lia. }
  field. exact Hn.
Qed.

Lemma StepLR_iter_invariant (s : StepLR) (n : nat) :
  step_size (Nat.iter n StepLR_step s) = step_size s /\
  sched_gamma (Nat.iter n StepLR_step s) = sched_gamma s.
Proof. induction n as [|n IH]; simpl; [auto|exact IH]. Qed.

Lemma StepLR_step_every_epoch (s : StepLR) :
  step_size s = 1 ->
  sgd_lr (optimizer (StepLR_step s)) = (sgd_lr (optimizer s) * sched_gamma s)%Q.
Proof. intros H. unfold StepLR_step. simpl. rewrite H, Z.mod_1_r. reflexivity. Qed.

End ClassifierFacts.

Module ClassifierClaims.
Import Config Classifier ClassifierFacts.

(** C7.  The schedule built by [configure_optimizers] is a single step
    schedule with period 1 and factor 97/100 on the single SGD optimizer:
    the learning rate of every epoch is 97/100 times that of the epoch
    before, starting from the configured [lr].  The configured [gamma],
    whose default is 1/10, has no effect: changing it changes neither what
    [configure_optimizers] returns nor any epoch's learning rate. *)
Theorem schedule_is_fixed_and_ignores_gamma (a : Args) (g : Q) (n : nat) :
  configure_optimizers a =
    ( [ {| sgd_lr := lr a; sgd_momentum := momentum a;
           sgd_weight_decay := weight_decay a |} ],
      [ {| optimizer := {| sgd_lr := lr a; sgd_momentum := momentum a;
                           sgd_weight_decay := weight_decay a |};
           step_size := 1; sched_gamma := 97 # 100; last_epoch := 0 |} ] ) /\
  lr_at_epoch a 0 = [lr a] /\
  lr_at_epoch a (S n) = List.map (fun r => r * (97 # 100))%Q (lr_at_epoch a n) /\
  gamma default_args = (1 # 10)%Q /\
  configure_optimizers (set_gamma g a) = configure_optimizers a /\
  lr_at_epoch (set_gamma g a) n = lr_at_epoch a n.
Proof.
  split; [reflexivity|]. split; [reflexivity|]. split.
  { unfold lr_at_epoch, configure_optimizers. cbn [snd List.map].
    set (s0 := {| optimizer := _; step_size := 1 |}).
    change (Nat.iter (S n) StepLR_step s0)
      with (StepLR_step (Nat.iter n StepLR_step s0)).
    destruct (StepLR_iter_invariant s0 n) as [Hs Hg].
    rewrite StepLR_step_every_epoch by (rewrite Hs; reflexivity).
    rewrite Hg. reflexivity. }
  split; [reflexivity|]. split; reflexivity.
Qed.

(** C8.  On every batch the loss accepts (one target per row of logits,
    each a class index of its row), the training step returns the loss, the
    criterion applied to the forward pass of the images and the targets,
    and logs exactly two metrics after those already logged: [train_loss],
    that loss, and [train_acc], the top-1 accuracy.  The validation step
    logs exactly [val_loss] and [val_acc], computed the same way, and
    returns no value.  Neither changes the parameters.  The accuracy is
    top-1: there is one comparison per target, a comparison succeeds
    exactly when the target is the index of the first largest logit of its
    row, and on a non-empty batch the accuracy times the batch size is the
    number of comparisons that succeed.  On a batch the loss rejects both
    steps raise, and nothing is logged. *)
Theorem steps_log_two_metrics_each
    (Images : Type) (model : list Q -> Images -> list (list Q))
    (criterion : list (list Q) -> list Z -> scalar)
    (self : module) (images : Images) (targets : list Z) (batch_idx : Z) :
  let outputs := model (parameters self) images in
  let loss := criterion outputs targets in
  let acc := mean_float (hits outputs targets) in
  batch_ok outputs targets = true ->
  training_step Images model criterion self (images, targets) batch_idx =
    Some (Some loss,
          {| parameters := parameters self;
             metrics := metrics self ++
               [ {| name := "train_loss"; logged := loss; prog_bar := false |};
                 {| name := "train_acc"; logged := acc; prog_bar := true |} ] |}) /\
  validation_step Images model criterion self (images, targets) batch_idx =
    Some (None,
          {| parameters := parameters self;
             metrics := metrics self ++
               [ {| name := "val_loss"; logged := loss; prog_bar := true |};
                 {| name := "val_acc"; logged := acc; prog_bar := true |} ] |}) /\
  length (hits outputs targets) = length targets /\
  List.Forall2 (fun b p => b = true <-> top1 (fst p) (snd p))
    (hits outputs targets) (List.combine outputs targets) /\
  (targets <> [] ->
     exists q, acc = Num q /\
       (q * inject_Z (Z.of_nat (length targets)) ==
        inject_Z (Z.of_nat (count_occ Bool.bool_dec (hits outputs targets) true)))%Q) /\
  (forall rejected, batch_ok outputs rejected = false ->
     training_step Images model criterion self (images, rejected) batch_idx = None /\
     validation_step Images model criterion self (images, rejected) batch_idx = None).
Proof.
  intros outputs loss acc Hok.
  assert (Hlen : length (hits outputs targets) = length targets).
  { unfold hits. rewrite List.length_map, List.length_combine.
    rewrite (batch_ok_lengths _ _ Hok). apply Nat.min_id. }
  split; [|split; [|split; [|split; [|split]]]].
  - unfold training_step, call_criterion, forward. fold outputs. rewrite Hok.
    unfold with_metrics, log. simpl. rewrite <- List.app_assoc. reflexivity.
  - unfold validation_step, call_criterion, forward. fold outputs. rewrite Hok.
    unfold with_metrics, log. simpl. rewrite <- List.app_assoc. reflexivity.
  - exact Hlen.
  - apply hits_are_top1, Hok.
  - intros Hne. rewrite <- Hlen. apply mean_float_counts.
    intros E. rewrite E in Hlen. destruct targets; [congruence|discriminate].
  - intros rejected Hbad.
    unfold training_step, validation_step, call_criterion, forward.
    fold outputs. rewrite Hbad. split; reflexivity.
Qed.

Lemma steps_log_two_metrics_each_witness :
  batch_ok [[1; 3; 2; 3]; [5; 0; 0; 0]]%Q [1; 2] = true /\
  training_step unit (fun _ _ => [[1; 3; 2; 3]; [5; 0; 0; 0]]%Q)
    (fun _ _ => Num (5 # 4)) {| parameters := []; metrics := [] |}
    (tt, [1; 2]) 0
  = Some (Some (Num (5 # 4)),
          {| parameters := [];
             metrics := [ {| name := "train_loss"; logged := Num (5 # 4);
                             prog_bar := false |};
                          {| name := "train_acc";
                             logged := mean_float [true; false];
                             prog_bar := true |} ] |}) /\
  training_step unit (fun _ _ => [[1; 3; 2; 3]; [5; 0; 0; 0]]%Q)
    (fun _ _ => Num (5 # 4)) {| parameters := []; metrics := [] |}
    (tt, [1]) 0 = None.
Proof.
  assert (H : batch_ok [[1; 3; 2; 3]; [5; 0; 0; 0]]%Q [1; 2] = true) by reflexivity.
  split; [exact H|].
  destruct (steps_log_two_metrics_each unit
              (fun _ _ => [[1; 3; 2; 3]; [5; 0; 0; 0]]%Q)
              (fun _ _ => Num (5 # 4)) {| parameters := []; metrics := [] |}
              tt [1; 2] 0 H) as (Htrain & _ & _ & _ & _ & Hbad).
  split; [exact Htrain|].
  exact (proj1 (Hbad [1] eq_refl)).
Defined.

End ClassifierClaims.

(** ** The trainer *)

Module DriverFacts.
Import Config Pipeline Callback Driver PipelineFacts CallbackFacts.

Section Fit.
Variable train_epoch : list Q -> list Q.
Variable cb : RemoveCataractTransformCallback.


(** Epochs that do not contain [t0] leave heap and output alone: a run
    that starts after [t0], or ends before it, never removes the blur. *)
Lemma fit_from_never_fires (n : nat) : forall first w,
  t0 cb < first \/ first + Z.of_nat n <= t0 cb ->
  exists w', fit_from train_epoch cb first n w = Some w' /\
             heap w' = heap w /\ stdout w' = stdout w /\ args w' = args w.
Proof.
  induction n as [|n IH]; intros first w Hout; simpl.
  - eauto.
  - rewrite hook_skips by (simpl; lia). simpl.
    destruct (IH (first + 1) (after_epoch train_epoch w)) as (w' & Hrun & Hh & Ho & Ha);
      [lia|].
    exists w'. auto.
Qed.

(** Epochs [first, ..., first + n - 1] that contain [t0] fire the hook
    once: one notice, and the filtered pipeline at the end. *)
Lemma fit_from_fires_once (n : nat) : forall first w,
  first <= t0 cb < first + Z.of_nat n ->
  attached cb w ->
  exists w', fit_from train_epoch cb first n w = Some w' /\
             stdout w' = stdout w ++ [notice (t0 cb)] /\
             pipeline_of (heap w') (train_dataset cb) =
             without_DownUpSample <$> pipeline_of (heap w) (train_dataset cb).
Proof.
  induction n as [|n IH]; intros first w Hin Hatt; simpl; [lia|].
  destruct (Z.eq_dec first (t0 cb)) as [He|Hne].
  - destruct (hook_total cb {| current_epoch := first |} w Hatt) as [w1 Hrun].
    rewrite Hrun. simpl.
    destruct (hook_fires_inv cb {| current_epoch := first |} w w1 He Hrun)
      as (? & ? & ? & ? & _ & _ & _ & _ & _ & Hout).
    pose proof (hook_fires_pipeline cb {| current_epoch := first |} w w1 He Hrun) as Hp.
    destruct (fit_from_never_fires n (first + 1) (after_epoch train_epoch w1))
      as (w' & Hrest & Hh & Ho & _); [lia|].
    exists w'. split; [exact Hrest|]. rewrite Hh, Ho. simpl. auto.
  - rewrite hook_skips by (simpl; exact Hne). simpl.
    apply (IH (first + 1) (after_epoch train_epoch w)); [lia|exact Hatt].
Qed.

End Fit.

(** The script's own run, from epoch 0 for [deficit_epoch +
    epochs_after_deficit] epochs, with a deficit epoch inside the run:
    one notice, and the training dataset ends on flip, translate,
    to-tensor, normalize. *)
Lemma script_run_removes_blur_once (train_epoch : list Q -> list Q)
    (a : Args) (params : list Q) :
  0 <= deficit_epoch a -> 0 < epochs_after_deficit a ->
  exists w',
    fit_from train_epoch (the_callback a) 0
      (Z.to_nat (deficit_epoch a + epochs_after_deficit a))
      (initial_world a params) = Some w' /\
    stdout w' = [notice (deficit_epoch a)] /\
    pipeline_of (heap w') train_dataset_loc =
      Some [ RandomHorizontalFlip (1 # 2); RandomAffine 0 (4 # 32, 4 # 32)%Q;
             ToTensor; Normalize cifar10_mean cifar10_std ].
Proof.
  intros Hd He.
  destruct (fit_from_fires_once train_epoch (the_callback a)
              (Z.to_nat (deficit_epoch a + epochs_after_deficit a)) 0
              (initial_world a params)) as (w' & Hrun & Hout & Hp).
  - simpl. lia.
  - exists train_transforms. vm_compute. reflexivity.
  - exists w'. split; [exact Hrun|]. split; [exact Hout|].
    simpl in Hp. rewrite Hp. vm_compute. reflexivity.
Qed.

End DriverFacts.

Module DriverMoreFacts.
Import Config Pipeline Callback Driver CallbackFacts.

(** The hook never touches what the epochs train. *)
Lemma fit_from_parameters train_epoch cb (n : nat) : forall first w w',
  fit_from train_epoch cb first n w = Some w' ->
  model_parameters w' = Nat.iter n train_epoch (model_parameters w) /\
  args w' = args w.
Proof.
  induction n as [|n IH]; intros first w w' Hrun; simpl in Hrun.
  - injection Hrun as <-. auto.
  - destruct (on_train_epoch_start cb {| current_epoch := first |} w) as [w1|] eqn:H1;
      simpl in Hrun; [|discriminate].
    destruct (IH _ _ _ Hrun) as [Hp Ha]. simpl in Hp, Ha.
    assert (Hw1 : model_parameters w1 = model_parameters w /\ args w1 = args w).
    { destruct (Z.eq_dec first (t0 cb)) as [He|Hne].
      - destruct (hook_fires_inv cb {| current_epoch := first |} w w1 He H1)
          as (? & ? & ? & ? & _ & _ & _ & Hm & Hargs & _). auto.
      - rewrite hook_skips in H1 by (simpl; exact Hne). injection H1 as <-. auto. }
    destruct Hw1 as [Hm Hargs].
    rewrite Hp, Ha, Hm, Hargs, Nat.iter_succ_r. auto.
Qed.

End DriverMoreFacts.

Module RunFacts.
Import Config Pipeline Callback Driver CallbackFacts DriverFacts.







End RunFacts.

Module DriverClaims.
Import Config Callback Driver DriverFacts DriverMoreFacts RunFacts.




End DriverClaims.

(** * Further properties *)

(** ** The model factory *)

Module ModelFacts.
Import Model.

Lemma window_out_same (size : nat) :
  (0 < size)%nat -> window_out size 3 1 1 = Some size.
Proof.
  intros H. unfold window_out.
  assert (E : ((0 <? 1) && (3 <=? size + 2 * 1))%nat = true).
  { apply andb_true_intro. split; [reflexivity|apply Nat.leb_le; lia]. }
  rewrite E. f_equal. rewrite Nat.div_1_r. lia.
Qed.

Lemma window_out_empty : window_out 0 3 1 1 = None.
Proof. reflexivity. Qed.

Lemma create_inv {Block} (base m : ResNet Block) :
  create_modified_resnet18 base = Some m ->
  exists fin fout b,
    fc base = Linear fin fout b /\
    m = set_fc (set_maxpool
          (set_conv1 base (Conv2d 3 64 3 1 1 false)) Identity)
          (Linear fin 10 true).
Proof.
  unfold create_modified_resnet18. simpl.
  destruct (fc base) as [| | |fin fout b]; simpl; try discriminate.
  intros [= <-]. eauto.
Qed.

End ModelFacts.

Module ModelExtras.
Import Model ModelFacts.

(** X1.  The stem of the modified network keeps the spatial resolution:
    for every batch size and every height and width of at least 1, the new
    first convolution maps 3 channels of [h] by [w] to 64 channels of [h]
    by [w], and the module in the place of the max pooling returns every
    size as it is.  Any other number of input channels, and an empty
    height or width, makes the convolution raise. *)
Theorem modified_stem_keeps_resolution {Block} (base m : ResNet Block)
    (n c h w : nat) (sz : list nat) :
  create_modified_resnet18 base = Some m ->
  (0 < h)%nat -> (0 < w)%nat ->
  output_size (conv1 m) [n; 3; h; w]%nat = Some [n; 64; h; w]%nat /\
  output_size (maxpool m) sz = Some sz /\
  (c <> 3%nat -> output_size (conv1 m) [n; c; h; w] = None) /\
  output_size (conv1 m) [n; 3; 0; w]%nat = None /\
  output_size (conv1 m) [n; 3; h; 0]%nat = None.
Proof.
  intros Hm Hh Hw.
  destruct (create_inv base m Hm) as (fin & fout & b & _ & ->). simpl.
  rewrite !window_out_same by assumption. simpl.
  split; [reflexivity|]. split; [reflexivity|]. split.
  - intros Hc. apply Nat.eqb_neq in Hc. rewrite Hc. reflexivity.
  - split; reflexivity.
Qed.

Lemma modified_stem_keeps_resolution_witness :
  exists m,
    create_modified_resnet18 generic_resnet18 = Some m /\
    output_size (conv1 m) [128; 3; 32; 32]%nat = Some [128; 64; 32; 32]%nat /\
    output_size (maxpool m) [128; 64; 32; 32]%nat = Some [128; 64; 32; 32]%nat.
Proof.
  destruct (create_modified_resnet18 generic_resnet18) as [m|] eqn:Hm;
    [|discriminate].
  exists m. split; [reflexivity|].
  destruct (modified_stem_keeps_resolution generic_resnet18 m 128 3 32 32
              [128; 64; 32; 32]%nat Hm) as (H1 & H2 & _); [lia|lia|].
  split; [exact H1|exact H2].
Defined.

(** X2.  The factory succeeds exactly when the last layer of the network
    it is given is a linear map.  It then replaces the first convolution,
    the max pooling and the last layer and nothing else: the new last
    layer reads as many features as the old one and returns 10 values per
    input, and raises on any other number of features; the other modules
    are the given network's. *)
Theorem factory_replaces_three_layers {Block} (base : ResNet Block) (n f : nat) :
  (is_Some (create_modified_resnet18 base) <->
   is_Some (in_features_of (fc base))) /\
  forall m, create_modified_resnet18 base = Some m ->
    exists fin,
      in_features_of (fc base) = Some fin /\
      fc m = Linear fin 10 true /\
      output_size (fc m) [n; fin] = Some [n; 10]%nat /\
      (f <> fin -> output_size (fc m) [n; f] = None) /\
      conv1 m = Conv2d 3 64 3 1 1 false /\
      maxpool m = Identity /\
      bn1 m = bn1 base /\ relu m = relu base /\
      layer1 m = layer1 base /\ layer2 m = layer2 base /\
      layer3 m = layer3 base /\ layer4 m = layer4 base /\
      avgpool m = avgpool base.
Proof.
  split.
  - unfold create_modified_resnet18. simpl.
    destruct (in_features_of (fc base)); simpl; split; intros [x Hx];
      try discriminate; eauto.
  - intros m Hm.
    destruct (create_inv base m Hm) as (fin & fout & b & Hfc & ->).
    exists fin. rewrite Hfc. simpl. rewrite Nat.eqb_refl.
    split; [reflexivity|]. split; [reflexivity|]. split; [reflexivity|].
    split.
    { intros Hf. apply Nat.eqb_neq in Hf. rewrite Hf. reflexivity. }
    repeat split; reflexivity.
Qed.

Lemma factory_replaces_three_layers_witness :
  exists m,
    create_modified_resnet18 generic_resnet18 = Some m /\
    fc m = Linear 512 10 true /\
    output_size (fc m) [128; 512]%nat = Some [128; 10]%nat.
Proof.
  destruct (create_modified_resnet18 generic_resnet18) as [m|] eqn:Hm;
    [|discriminate].
  exists m. split; [reflexivity|].
  destruct (factory_replaces_three_layers generic_resnet18 128 0) as [_ H].
  destruct (H m Hm) as (fin & Hin & Hfc & Hout & _).
  injection Hin as <-. split; [exact Hfc|exact Hout].
Defined.

End ModelExtras.

(** ** The blur-resample transform: errors and freshness *)

Module BlurCallFacts.
Import Blur BlurFacts.

(** A successful call read backwards: the input was a live tensor of three
    non-empty dimensions, and the result is the one of [call_ok]. *)
Lemma call_inv (s : store) img out s' :
  DownUpSampleTransform_call img s = Some (out, s') ->
  exists c h w d,
    size img = [c; h; w] /\ (0 < c)%nat /\ (0 < h)%nat /\ (0 < w)%nat /\
    s !! storage img = Some d /\
    out = {| storage := S (length s); size := [c; 32; 32]%nat |} /\
    s' = s ++ [ bilinear (1 * c) h w 8 8 d;
                bilinear (1 * c) 8 8 32 32 (bilinear (1 * c) h w 8 8 d) ].
Proof.
  intros Hrun.
  assert (Hshape : exists c h w d,
             size img = [c; h; w] /\ (0 < c)%nat /\ (0 < h)%nat /\ (0 < w)%nat /\
             s !! storage img = Some d).
  { revert Hrun.
    unfold DownUpSampleTransform_call, bind at 1, unsqueeze0, ret at 1.
    unfold bind at 1. unfold interpolate at 1. unfold bind at 1, read. simpl.
    destruct (s !! storage img) as [d|] eqn:Hd; [|discriminate].
    destruct (size img) as [|c [|h [|w [|x rest]]]]; try discriminate.
    destruct c as [|c]; [discriminate|].
    destruct h as [|h]; [discriminate|].
    destruct w as [|w]; [discriminate|].
    intros _. exists (S c), (S h), (S w), d. repeat split; auto; lia. }
  destruct Hshape as (c & h & w & d & Hsz & Hc & Hh & Hw & Hd).
  rewrite (call_ok s img c h w d Hsz Hd Hc Hh Hw) in Hrun.
  injection Hrun as <- <-.
  exists c, h, w, d. repeat split; auto.
Qed.

Lemma lookup_last_of_two (s : store) (x y : list Q) :
  (s ++ [x; y]) !! S (length s) = Some y.
Proof.
  unfold store in *.
  replace (s ++ [x; y]) with ((s ++ [x]) ++ [y])
    by (rewrite <- List.app_assoc; reflexivity).
  apply list_lookup_middle. rewrite List.length_app. simpl. lia.
Qed.

Lemma call_some_b : is_Some (DownUpSampleTransform_call img_b store_b).
Proof.
  rewrite (call_ok store_b img_b 1 2 2 [1; 2; 3; 4]%Q);
    [eauto|reflexivity|reflexivity|lia|lia|lia].
Qed.

End BlurCallFacts.

Module BlurExtras.
Import Blur BlurFacts BlurCallFacts.

(** X5.  The transform raises on everything that is not a tensor of
    three non-empty dimensions (channels, height, width): a tensor of any
    other rank, a 2-D image or a 4-D batch of images among them, and a
    tensor with an empty channel, height or width. *)
Theorem blur_raises_unless_3d_nonempty s img :
  ~ (exists c h w,
       size img = [c; h; w] /\ (0 < c)%nat /\ (0 < h)%nat /\ (0 < w)%nat) ->
  DownUpSampleTransform_call img s = None.
Proof.
  intros Hnot.
  destruct (DownUpSampleTransform_call img s) as [[out s']|] eqn:Hrun;
    [|reflexivity].
  exfalso. apply Hnot.
  destruct (call_inv s img out s' Hrun) as (c & h & w & d & Hsz & Hc & Hh & Hw & _).
  exists c, h, w. auto.
Qed.

Lemma blur_raises_unless_3d_nonempty_witness :
  DownUpSampleTransform_call {| storage := 0; size := [2; 3; 32; 32]%nat |} store_a = None /\
  DownUpSampleTransform_call {| storage := 0; size := [32; 32]%nat |} store_a = None /\
  DownUpSampleTransform_call {| storage := 0; size := [3; 0; 32]%nat |} store_a = None.
Proof.
  split; [|split]; apply blur_raises_unless_3d_nonempty;
    intros (c & h & w & Hsz & Hc & Hh & Hw); simpl in Hsz;
    try discriminate; injection Hsz as <- <- <-; lia.
Defined.

(** X6.  A successful call adds exactly two storages to the store and
    returns a tensor on the last of them: the result shares no storage
    with the input or with any tensor that existed before. *)
Theorem blur_result_is_on_new_storage s img out s' :
  DownUpSampleTransform_call img s = Some (out, s') ->
  length s' = (length s + 2)%nat /\
  s !! storage out = None /\
  is_Some (s' !! storage out) /\
  storage out <> storage img /\
  forall t, is_Some (value s t) -> storage t <> storage out.
Proof.
  intros Hrun.
  destruct (call_inv s img out s' Hrun)
    as (c & h & w & d & Hsz & Hc & Hh & Hw & Hd & -> & ->).
  simpl.
  assert (Hnone : s !! S (length s) = None) by (apply lookup_ge_None; lia).
  split; [rewrite List.length_app; simpl; lia|].
  split; [exact Hnone|].
  split; [rewrite lookup_last_of_two; eauto|].
  split.
  - intros E. rewrite <- E in Hd. congruence.
  - intros t [v Hv] E. unfold value in Hv. rewrite E, Hnone in Hv. discriminate.
Qed.

Lemma blur_result_is_on_new_storage_witness :
  exists out s',
    DownUpSampleTransform_call img_b store_b = Some (out, s') /\
    length s' = 4%nat /\ store_b !! storage out = None.
Proof.
  destruct (DownUpSampleTransform_call img_b store_b) as [[out s']|] eqn:Hrun.
  - exists out, s'. split; [reflexivity|].
    destruct (blur_result_is_on_new_storage store_b img_b out s' Hrun)
      as (Hlen & Hnew & _).
    split; [exact Hlen|exact Hnew].
  - exfalso. pose proof call_some_b as H.
    rewrite Hrun in H. destruct H; discriminate.
Defined.

End BlurExtras.

(** ** The training module: accuracy and learning rate *)

Module ClassifierMoreFacts.
Import Config Classifier ClassifierFacts.

Lemma count_true_le (bs : list bool) :
  (length (List.filter (fun b => b) bs) <= length bs)%nat.
Proof. apply List.filter_length_le. Qed.

Lemma count_true_all (bs : list bool) :
  length (List.filter (fun b => b) bs) = length bs <-> List.Forall (eq true) bs.
Proof.
  induction bs as [|b bs IH]; simpl.
  - split; [constructor|reflexivity].
  - destruct b; simpl.
    + rewrite Nat.succ_inj_wd, IH. split.
      * intros H. constructor; [reflexivity|exact H].
      * intros H. inversion H. assumption.
    + pose proof (count_true_le bs) as Hle. split; [lia|].
      intros H. inversion H. discriminate.
Qed.

Lemma count_true_none (bs : list bool) :
  length (List.filter (fun b => b) bs) = 0%nat <-> List.Forall (eq false) bs.
Proof.
  induction bs as [|b bs IH]; simpl.
  - split; [constructor|reflexivity].
  - destruct b; simpl.
    + split; [lia|]. intros H. inversion H. discriminate.
    + rewrite IH. split.
      * intros H. constructor; [reflexivity|exact H].
      * intros H. inversion H. assumption.
Qed.

Lemma hits_length (outputs : list (list Q)) (targets : list Z) :
  length (hits outputs targets) = Nat.min (length outputs) (length targets).
Proof. unfold hits. rewrite List.length_map. apply List.length_combine. Qed.

Lemma length_pos_Q {A} (l : list A) :
  l <> [] -> (0 < inject_Z (Z.of_nat (length l)))%Q.
Proof.
  intros H. destruct l; [congruence|].
  change 0%Q with (inject_Z 0). rewrite <- Zlt_Qlt. simpl length. lia.
Qed.

Lemma mean_of_bools_range (bs : list bool) :
  bs <> [] -> (0 <= mean_of_bools bs)%Q /\ (mean_of_bools bs <= 1)%Q.
Proof.
  intros H. unfold mean_of_bools. pose proof (length_pos_Q bs H) as Hpos.
  split.
  - apply Qle_shift_div_l; [exact Hpos|]. rewrite Qmult_0_l.
    change 0%Q with (inject_Z 0). rewrite <- Zle_Qle. lia.
  - apply Qle_shift_div_r; [exact Hpos|]. rewrite Qmult_1_l.
    rewrite <- Zle_Qle. pose proof (count_true_le bs). lia.
Qed.

Lemma mean_of_bools_eq (bs : list bool) (k : Z) :
  bs <> [] ->
  (mean_of_bools bs == inject_Z k)%Q <->
  Z.of_nat (length (List.filter (fun b => b) bs)) = (k * Z.of_nat (length bs))%Z.
Proof.
  intros H. unfold mean_of_bools. pose proof (length_pos_Q bs H) as Hpos.
  assert (Hne : ~ (inject_Z (Z.of_nat (length bs)) == 0)%Q).
  { intros E. rewrite E in Hpos. apply (Qlt_irrefl 0), Hpos. }
  rewrite <- inject_Z_injective, inject_Z_mult. split.
  - intros E. rewrite <- E. field. exact Hne.
  - intros E. rewrite E. field. exact Hne.
Qed.

(** Under a schedule of period 1 with a positive factor, a positive
    learning rate stays positive. *)
Lemma lr_stays_positive (s : StepLR) (n : nat) :
  step_size s = 1 -> (0 < sched_gamma s)%Q -> (0 < sgd_lr (optimizer s))%Q ->
  (0 < sgd_lr (optimizer (Nat.iter n StepLR_step s)))%Q.
Proof.
  intros Hs Hg Hlr. induction n as [|n IH]; [exact Hlr|].
  change (Nat.iter (S n) StepLR_step s)
    with (StepLR_step (Nat.iter n StepLR_step s)).
  destruct (StepLR_iter_invariant s n) as [Hs' Hg'].
  rewrite StepLR_step_every_epoch by (rewrite Hs'; exact Hs).
  rewrite Hg'. apply Qmult_lt_0_compat; assumption.
Qed.

End ClassifierMoreFacts.

Module ClassifierExtras.
Import Config Classifier ClassifierFacts ClassifierMoreFacts.

(** X7.  The accuracy both steps log is a fraction: on every batch with
    at least one row of logits and one target it lies between 0 and 1. *)
Theorem logged_accuracy_is_a_fraction (outputs : list (list Q)) (targets : list Z) :
  outputs <> [] -> targets <> [] ->
  (0 <= mean_of_bools (hits outputs targets))%Q /\
  (mean_of_bools (hits outputs targets) <= 1)%Q.
Proof.
  intros Ho Ht. apply mean_of_bools_range.
  intros E. apply (f_equal (@length bool)) in E. rewrite hits_length in E.
  destruct outputs; [congruence|]. destruct targets; [congruence|].
  simpl in E. discriminate.
Qed.

Lemma logged_accuracy_is_a_fraction_witness :
  [[1; 3; 2]; [5; 0; 0]]%Q <> [] /\ [1; 2]%Z <> [] /\
  (0 <= mean_of_bools (hits [[1; 3; 2]; [5; 0; 0]]%Q [1; 2]%Z))%Q /\
  (mean_of_bools (hits [[1; 3; 2]; [5; 0; 0]]%Q [1; 2]%Z) <= 1)%Q.
Proof.
  assert (Ho : [[1; 3; 2]; [5; 0; 0]]%Q <> []) by discriminate.
  assert (Ht : [1; 2]%Z <> []) by discriminate.
  split; [exact Ho|]. split; [exact Ht|].
  exact (logged_accuracy_is_a_fraction [[1; 3; 2]; [5; 0; 0]]%Q [1; 2]%Z Ho Ht).
Defined.

(** X8.  On a non-empty batch the logged accuracy is 1 exactly when every
    comparison of a predicted index with its target succeeds, and 0 exactly
    when every one fails. *)
Theorem logged_accuracy_extremes (outputs : list (list Q)) (targets : list Z) :
  outputs <> [] -> targets <> [] ->
  ((mean_of_bools (hits outputs targets) == 1)%Q <->
   List.Forall (eq true) (hits outputs targets)) /\
  ((mean_of_bools (hits outputs targets) == 0)%Q <->
   List.Forall (eq false) (hits outputs targets)).
Proof.
  intros Ho Ht.
  assert (Hne : hits outputs targets <> []).
  { intros E. apply (f_equal (@length bool)) in E. rewrite hits_length in E.
    destruct outputs; [congruence|]. destruct targets; [congruence|].
    simpl in E. discriminate. }
  split.
  - change 1%Q with (inject_Z 1). rewrite (mean_of_bools_eq _ 1 Hne).
    rewrite <- count_true_all. lia.
  - change 0%Q with (inject_Z 0). rewrite (mean_of_bools_eq _ 0 Hne).
    rewrite <- count_true_none. lia.
Qed.

Lemma logged_accuracy_extremes_witness :
  [[1; 3; 2]; [5; 0; 0]]%Q <> [] /\ [1; 0]%Z <> [] /\
  (mean_of_bools (hits [[1; 3; 2]; [5; 0; 0]]%Q [1; 0]%Z) == 1)%Q.
Proof.
  assert (Ho : [[1; 3; 2]; [5; 0; 0]]%Q <> []) by discriminate.
  assert (Ht : [1; 0]%Z <> []) by discriminate.
  split; [exact Ho|]. split; [exact Ht|].
  apply (proj1 (logged_accuracy_extremes [[1; 3; 2]; [5; 0; 0]]%Q [1; 0]%Z Ho Ht)).
  repeat constructor.
Defined.

(** X10.  With a positive configured [lr] the learning rate stays
    positive and never increases from an epoch to the next. *)
Theorem learning_rate_never_increases (a : Args) (n : nat) :
  (0 < lr a)%Q ->
  exists r r', lr_at_epoch a n = [r] /\ lr_at_epoch a (S n) = [r'] /\
               (0 < r')%Q /\ (r' <= r)%Q.
Proof.
  intros Hlr.
  unfold lr_at_epoch, configure_optimizers. cbn [snd List.map].
  set (s0 := {| optimizer := _; step_size := 1 |}).
  eexists _, _. split; [reflexivity|]. split; [reflexivity|].
  assert (Hpos : forall k, (0 < sgd_lr (optimizer (Nat.iter k StepLR_step s0)))%Q).
  { intros k. apply lr_stays_positive; [reflexivity|reflexivity|exact Hlr]. }
  split; [apply Hpos|].
  change (Nat.iter (S n) StepLR_step s0)
    with (StepLR_step (Nat.iter n StepLR_step s0)).
  destruct (StepLR_iter_invariant s0 n) as [Hs Hg].
  rewrite StepLR_step_every_epoch by (rewrite Hs; reflexivity).
  rewrite Hg. simpl sched_gamma.
  specialize (Hpos n).
  set (r := sgd_lr (optimizer (Nat.iter n StepLR_step s0))) in *.
  lra.
Qed.

Lemma learning_rate_never_increases_witness :
  (0 < lr default_args)%Q /\
  exists r r', lr_at_epoch default_args 3 = [r] /\
               lr_at_epoch default_args 4 = [r'] /\ (r' <= r)%Q.
Proof.
  assert (H : (0 < lr default_args)%Q) by reflexivity.
  split; [exact H|].
  destruct (learning_rate_never_increases default_args 3 H)
    as (r & r' & H1 & H2 & _ & Hle).
  exists r, r'. auto.
Defined.

End ClassifierExtras.

(** ** The deficit-removal hook: errors, invariant, reference swap *)

Module CallbackExtras.
Import Config Pipeline Callback PipelineFacts CallbackFacts.

(** X11.  The hook raises exactly when it fires on a dataset it cannot
    read a pipeline from: the epoch is [t0] and the callback's dataset is
    not a live dataset whose [transform] is a live pipeline object.  At
    every other epoch it returns normally whatever the dataset holds. *)
Theorem hook_raises_iff_fires_unattached self trainer w :
  on_train_epoch_start self trainer w = None <->
  current_epoch trainer = t0 self /\ ~ attached self w.
Proof.
  split.
  - intros Hnone.
    destruct (Z.eq_dec (current_epoch trainer) (t0 self)) as [He|Hne].
    + split; [exact He|]. intros Hatt.
      destruct (hook_total self trainer w Hatt) as [w' Hrun]. congruence.
    + rewrite (hook_skips _ _ _ Hne) in Hnone. discriminate.
  - intros [He Hnot]. unfold on_train_epoch_start. rewrite He, Z.eqb_refl.
    unfold attached, pipeline_of in Hnot.
    destruct (get_transform (heap w) (train_dataset self)) as [r|]; simpl in *;
      [|reflexivity].
    destruct (get_transforms (heap w) r) as [ts|]; simpl; [|reflexivity].
    exfalso. apply Hnot. eauto.
Qed.

(** X12.  Being attached is kept by the hook: on an attached world the
    hook returns normally, at every epoch, a world on which the callback
    is attached again, so it can be called epoch after epoch without ever
    raising. *)
Theorem hook_keeps_the_dataset_attached self trainer w :
  attached self w ->
  exists w', on_train_epoch_start self trainer w = Some w' /\ attached self w'.
Proof.
  intros Hatt. destruct (hook_total self trainer w Hatt) as [w' Hrun].
  exists w'. split; [exact Hrun|].
  destruct Hatt as [ts Hts]. unfold attached.
  destruct (Z.eq_dec (current_epoch trainer) (t0 self)) as [He|Hne].
  - rewrite (hook_fires_pipeline _ _ _ _ He Hrun), Hts. eexists; reflexivity.
  - rewrite (hook_skips _ _ _ Hne) in Hrun. injection Hrun as <-. eauto.
Qed.

Lemma hook_keeps_the_dataset_attached_witness :
  attached (the_callback default_args) (initial_world default_args []) /\
  exists w',
    on_train_epoch_start (the_callback default_args) {| current_epoch := 0 |}
      (initial_world default_args []) = Some w' /\
    attached (the_callback default_args) w'.
Proof.
  assert (H : attached (the_callback default_args) (initial_world default_args [])).
  { exists train_transforms. vm_compute. reflexivity. }
  split; [exact H|].
  exact (hook_keeps_the_dataset_attached (the_callback default_args)
           {| current_epoch := 0 |} (initial_world default_args []) H).
Defined.

(** X13.  A firing hook swaps a reference and mutates no pipeline: the
    dataset's [transform] field ends on an object that did not exist
    before, the heap gains exactly that object, and the pipeline object
    the dataset referred to before still holds its unfiltered steps, the
    blur among them, for whoever else holds it. *)
Theorem hook_swaps_reference_without_mutation self trainer w root train r ts :
  current_epoch trainer = t0 self ->
  heap w !! train_dataset self = Some (OCIFAR10 root train r) ->
  heap w !! r = Some (OCompose ts) ->
  exists w' r',
    on_train_epoch_start self trainer w = Some w' /\
    heap w' !! train_dataset self = Some (OCIFAR10 root train r') /\
    heap w !! r' = None /\
    r' <> r /\
    heap w' !! r' = Some (OCompose (without_DownUpSample ts)) /\
    heap w' !! r = Some (OCompose ts) /\
    dom (heap w') = {[ r' ]} ∪ dom (heap w).
Proof.
  intros He Hds Hr.
  destruct (hook_total self trainer w) as [w' Hrun].
  { exists ts. unfold pipeline_of, get_transform, get_transforms.
    rewrite Hds. simpl. rewrite Hr. reflexivity. }
  destruct (hook_fires_inv _ _ _ _ He Hrun)
    as (root' & train' & r0 & ts0 & Hds' & Hr' & Hh & _).
  rewrite Hds in Hds'. injection Hds' as <- <- <-.
  rewrite Hr in Hr'. injection Hr' as <-.
  pose proof (fresh_not_live (heap w)) as Hfresh.
  set (l := fresh (dom (heap w))) in *.
  assert (Hl_ds : train_dataset self <> l) by (intros E; rewrite <- E in Hfresh; congruence).
  assert (Hl_r : l <> r) by (intros E; rewrite E in Hfresh; congruence).
  assert (Hds_r : train_dataset self <> r) by (intros E; rewrite E in Hds; congruence).
  exists w', l. split; [exact Hrun|]. rewrite Hh.
  split; [apply lookup_insert_eq|].
  split; [exact Hfresh|].
  split; [exact Hl_r|].
  split; [rewrite lookup_insert_ne by exact Hl_ds; apply lookup_insert_eq|].
  split.
  { rewrite lookup_insert_ne by exact Hds_r.
    rewrite lookup_insert_ne by exact Hl_r. exact Hr. }
  rewrite !dom_insert_L.
  assert (Hin : train_dataset self ∈ dom (heap w)) by (apply elem_of_dom; eauto).
  apply set_eq. intros x. rewrite !elem_of_union, !elem_of_singleton.
  split; [intros [->|Hx]; [right; exact Hin|exact Hx]|intros Hx; right; exact Hx].
Qed.

Lemma hook_swaps_reference_without_mutation_witness :
  exists w' r',
    on_train_epoch_start (the_callback default_args) {| current_epoch := 0 |}
      (initial_world default_args []) = Some w' /\
    r' <> train_transforms_loc /\
    heap w' !! train_transforms_loc = Some (OCompose train_transforms).
Proof.
  destruct (hook_swaps_reference_without_mutation (the_callback default_args)
              {| current_epoch := 0 |} (initial_world default_args [])
              "./data" true train_transforms_loc train_transforms eq_refl)
    as (w' & r' & Hrun & _ & _ & Hne & _ & Hold & _).
  - vm_compute. reflexivity.
  - vm_compute. reflexivity.
  - exists w', r'. auto.
Defined.

End CallbackExtras.

(** ** Runs of the epoch loop *)


Module DriverExtras.
Import Config Pipeline Callback Driver PipelineFacts CallbackFacts DriverFacts
       DriverMoreFacts.

(** X14.  A run of [n] epochs starting at [first] that contains epoch
    [t0] removes the blur exactly once: it ends normally with one notice
    printed, the callback's dataset on the filtered pipeline, and the model
    parameters those of [n] epochs of training. *)
Theorem run_through_t0_removes_blur_once train_epoch cb (n : nat) first w :
  first <= t0 cb < first + Z.of_nat n ->
  attached cb w ->
  exists w',
    fit_from train_epoch cb first n w = Some w' /\
    stdout w' = stdout w ++ [notice (t0 cb)] /\
    pipeline_of (heap w') (train_dataset cb) =
      without_DownUpSample <$> pipeline_of (heap w) (train_dataset cb) /\
    model_parameters w' = Nat.iter n train_epoch (model_parameters w).
Proof.
  intros Hin Hatt.
  destruct (fit_from_fires_once train_epoch cb n first w Hin Hatt)
    as (w' & Hrun & Hout & Hp).
  exists w'. split; [exact Hrun|]. split; [exact Hout|]. split; [exact Hp|].
  apply (fit_from_parameters _ _ _ _ _ _ Hrun).
Qed.

Lemma run_through_t0_removes_blur_once_witness :
  attached {| t0 := 2; train_dataset := train_dataset_loc |}
           (initial_world default_args [1]%Q) /\
  exists w',
    fit_from (List.map (Qmult 2)) {| t0 := 2; train_dataset := train_dataset_loc |}
      0 5 (initial_world default_args [1]%Q) = Some w' /\
    stdout w' = ["Removed DownUpSampleTransform at epoch 2."].
Proof.
  assert (H : attached {| t0 := 2; train_dataset := train_dataset_loc |}
                (initial_world default_args [1]%Q)).
  { exists train_transforms. vm_compute. reflexivity. }
  split; [exact H|].
  destruct (run_through_t0_removes_blur_once (List.map (Qmult 2))
              {| t0 := 2; train_dataset := train_dataset_loc |} 5 0
              (initial_world default_args [1]%Q))
    as (w' & Hrun & Hout & _); [simpl; lia|exact H|].
  exists w'. split; [exact Hrun|]. rewrite Hout. vm_compute. reflexivity.
Defined.

(** X15.  A run that does not contain epoch [t0], because it starts
    after [t0] (a resumed run) or ends before it, never removes the blur:
    it ends normally with the heap, hence every pipeline, and the output
    as they were. *)
Theorem run_missing_t0_keeps_blur train_epoch cb (n : nat) first w :
  t0 cb < first \/ first + Z.of_nat n <= t0 cb ->
  exists w',
    fit_from train_epoch cb first n w = Some w' /\
    heap w' = heap w /\
    stdout w' = stdout w /\
    pipeline_of (heap w') (train_dataset cb) = pipeline_of (heap w) (train_dataset cb) /\
    model_parameters w' = Nat.iter n train_epoch (model_parameters w).
Proof.
  intros Hout.
  destruct (fit_from_never_fires train_epoch cb n first w Hout)
    as (w' & Hrun & Hh & Ho & _).
  exists w'. split; [exact Hrun|]. split; [exact Hh|]. split; [exact Ho|].
  split; [rewrite Hh; reflexivity|].
  apply (fit_from_parameters _ _ _ _ _ _ Hrun).
Qed.

Lemma run_missing_t0_keeps_blur_witness :
  exists w',
    fit_from (List.map (Qmult 2)) {| t0 := 2; train_dataset := train_dataset_loc |}
      3 4 (initial_world default_args [1]%Q) = Some w' /\
    stdout w' = [] /\
    pipeline_of (heap w') train_dataset_loc = Some train_transforms.
Proof.
  destruct (run_missing_t0_keeps_blur (List.map (Qmult 2))
              {| t0 := 2; train_dataset := train_dataset_loc |} 4 3
              (initial_world default_args [1]%Q))
    as (w' & Hrun & _ & Hout & Hp & _); [left; simpl; lia|].
  exists w'. split; [exact Hrun|]. split; [exact Hout|].
  simpl in Hp. rewrite Hp. vm_compute. reflexivity.
Defined.



End DriverExtras.
